(** * Verification of src/gradle.ts

    The module shells out to the gradle command line, captures its output
    and extracts the version, the dependency listing, the build environment
    and single properties with regular expressions.

    The definitions come first:
    - JavaScript strings as lists of UTF-16 code units;
    - a backtracking matcher for the fragment of ECMAScript regular
      expressions the module uses (module [RegExp]);
    - the part of the npm package semver the module calls (module [Semver]);
    - the functions of gradle.ts as programs over the calls they make to
      [@actions/exec] and [@actions/core], with an interpreter that runs
      them against a host and records the trace of calls.

    The properties follow: facts on the matcher, on the three patterns of
    the module and on the runs of its functions, and then the statements
    about the version probe, the capability gate, the property retrieval
    and the two listings. *)

From Stdlib Require Import List NArith ZArith Bool Lia String Ascii DecimalString.
Import ListNotations.

(** ** JavaScript strings *)

(** A JavaScript string is a sequence of UTF-16 code units. *)
Definition jsstring := list N.

(** A string literal of the source. *)
Definition js (s : string) : jsstring :=
  List.map N_of_ascii (list_ascii_of_string s).

(** The escape [\n] of the source. *)
Definition LF : N := 10%N.

Definition jsstring_eqb (a b : jsstring) : bool :=
  if list_eq_dec N.eq_dec a b then true else false.

(** [s.startsWith(p)]. *)
Fixpoint startsWith (p s : jsstring) : bool :=
  match p, s with
  | [], _ => true
  | x :: p', y :: s' => N.eqb x y && startsWith p' s'
  | _ :: _, [] => false
  end.

(** [s.indexOf(p)], [None] standing for -1. *)
Fixpoint indexOf (p s : jsstring) : option nat :=
  if startsWith p s then Some 0
  else match s with
       | [] => None
       | _ :: s' => option_map S (indexOf p s')
       end.

(** [s.split('\n')]: the pieces between line feeds, always at least one. *)
Fixpoint split_lines (s : jsstring) : list jsstring :=
  match s with
  | [] => [[]]
  | x :: s' =>
      if N.eqb x LF then [] :: split_lines s'
      else match split_lines s' with
           | l :: ls => (x :: l) :: ls
           | [] => [[x]]
           end
  end.

(** Decimal rendering of a number inside a template literal. *)
Definition show_Z (z : Z) : jsstring :=
  js (NilZero.string_of_int (Z.to_int z)).

(** ** Regular expressions *)

Module RegExp.

(** Character classes. *)
Inductive cclass :=
| Any                    (* [\S\s] *)
| Dot                    (* .      *)
| Digit                  (* \d     *)
| OneOf (l : list N)     (* [abc]  *)
| Not (c : cclass).      (* [^...] *)

(** The line terminators, which [.] does not match. *)
Definition lineTerminator (x : N) : bool :=
  (N.eqb x 10 || N.eqb x 13 || N.eqb x 8232 || N.eqb x 8233)%N.

Fixpoint accepts (c : cclass) (x : N) : bool :=
  match c with
  | Any => true
  | Dot => negb (lineTerminator x)
  | Digit => (N.leb 48 x && N.leb x 57)%N
  | OneOf l => existsb (N.eqb x) l
  | Not c' => negb (accepts c' x)
  end.

(** The patterns of the fragment.  Quantifiers apply to a character
    class, which is all the source and semver's coercion need. *)
Inductive regex :=
| Empty
| Lit (s : jsstring)                      (* the characters of s *)
| Class (c : cclass)
| Seq (r1 r2 : regex)                     (* r1r2 *)
| Alt (r1 r2 : regex)                     (* r1|r2 *)
| Repeat (greedy : bool) (min : nat) (max : option nat) (c : cclass)
                                          (* c{min,max}, c{min,max}? *)
| Optional (r : regex)                    (* (?:r)? *)
| Group (n : nat) (r : regex)             (* the n-th capturing group *)
| Bos                                     (* ^ *)
| Eos.                                    (* $ *)

Definition star (greedy : bool) (c : cclass) := Repeat greedy 0 None c.
Definition plus (greedy : bool) (c : cclass) := Repeat greedy 1 None c.

(** The captures of a match: index 0 is the whole match, [None] is
    [undefined]. *)
Definition captures := nat -> option jsstring.

Definition noCaptures : captures := fun _ => None.

Definition capture (n : nat) (w : jsstring) (c : captures) : captures :=
  fun i => if Nat.eqb i n then Some w else c i.

Definition exhausted (max : option nat) : bool :=
  match max with
  | Some 0 => true
  | _ => false
  end.

(** The quantifier on a class.  The continuation [k] receives the
    characters consumed and the rest of the input; a greedy quantifier
    tries one more character before it tries to stop, a lazy one stops
    first. *)
Fixpoint repeatClass (greedy : bool) (p : N -> bool) (min : nat)
    (max : option nat) (s : jsstring)
    (k : jsstring -> jsstring -> option captures) {struct s}
    : option captures :=
  let stop (_ : unit) := if Nat.eqb min 0 then k [] s else None in
  let more (_ : unit) :=
    match s with
    | x :: s' =>
        if p x && negb (exhausted max)
        then repeatClass greedy p (Nat.pred min) (option_map Nat.pred max) s'
                    (fun w rest => k (x :: w) rest)
        else None
    | [] => None
    end in
  if greedy
  then match more tt with Some r => Some r | None => stop tt end
  else match stop tt with Some r => Some r | None => more tt end.

Definition null (w : jsstring) : bool :=
  match w with
  | [] => true
  | _ => false
  end.

(** The backtracking matcher, in continuation-passing style:
    [matchAt r bos s c k] matches [r] at the head of [s], [bos] telling
    whether that is the beginning of the input, and hands the characters
    consumed, the rest and the captures to [k]; when [k] fails the next
    alternative is tried, left to right, as the ECMAScript semantics
    orders them. *)
Fixpoint matchAt (r : regex) (bos : bool) (s : jsstring) (c : captures)
    (k : jsstring -> jsstring -> captures -> option captures)
    : option captures :=
  match r with
  | Empty => k [] s c
  | Lit l =>
      if startsWith l s then k l (skipn (List.length l) s) c else None
  | Class cl =>
      match s with
      | x :: s' => if accepts cl x then k [x] s' c else None
      | [] => None
      end
  | Seq r1 r2 =>
      matchAt r1 bos s c (fun w1 s1 c1 =>
        matchAt r2 (bos && null w1) s1 c1 (fun w2 s2 c2 =>
          k (w1 ++ w2) s2 c2))
  | Alt r1 r2 =>
      match matchAt r1 bos s c k with
      | Some res => Some res
      | None => matchAt r2 bos s c k
      end
  | Repeat greedy min max cl =>
      repeatClass greedy (accepts cl) min max s (fun w rest => k w rest c)
  | Optional r' =>
      match matchAt r' bos s c k with
      | Some res => Some res
      | None => k [] s c
      end
  | Group n r' =>
      matchAt r' bos s c (fun w rest c' => k w rest (capture n w c'))
  | Bos => if bos then k [] s c else None
  | Eos =>
      match s with
      | [] => k [] s c
      | _ :: _ => None
      end
  end.

(** A match attempt at one start position. *)
Definition attempt (r : regex) (bos : bool) (s : jsstring) : option captures :=
  matchAt r bos s noCaptures (fun w _ c => Some (capture 0 w c)).

Fixpoint search (r : regex) (bos : bool) (s : jsstring) : option captures :=
  match attempt r bos s with
  | Some c => Some c
  | None =>
      match s with
      | [] => None
      | _ :: s' => search r false s'
      end
  end.

(** [s.match(r)] for a pattern without flags: the first start position,
    from the left, at which an attempt succeeds; [None] is [null]. *)
Definition exec (r : regex) (s : jsstring) : option captures :=
  search r true s.

End RegExp.

(** ** The calls into the npm package semver *)

Module Semver.
Import RegExp.

(** Modelled from the spec: the [SemVer] objects of the npm package
    semver, which gradle.ts imports and which is not part of src/:
    "SemanticVersion: a normalized (major, minor, patch) triple derived
    from free-form banner text".  A coerced version carries no
    prerelease and no build tag. *)
Record SemVer := { major : N; minor : N; patch : N }.

(** Modelled from the spec: the package's pattern for coercion,
    [(^|[^\d])(\d{1,16})(?:\.(\d{1,16}))?(?:\.(\d{1,16}))?(?:$|[^\d])]:
    the first run of digits of the string that is not part of a longer
    run ("leading non-numeric prefixes stripped"), with up to two further
    dot-separated components. *)
Definition COERCE : regex :=
  let component := Repeat true 1 (Some 16) Digit in
  Seq (Group 1 (Alt Bos (Class (Not Digit))))
 (Seq (Group 2 component)
 (Seq (Optional (Seq (Lit (js ".")) (Group 3 component)))
 (Seq (Optional (Seq (Lit (js ".")) (Group 4 component)))
      (Alt Eos (Class (Not Digit)))))).

(** Modelled from the spec: the value of a numeric component, "each
    compared numerically".  The package's strict parser accepts [0] and
    digit strings without a leading zero, up to [Number.MAX_SAFE_INTEGER]. *)
Definition digitValue (x : N) : N := (x - 48)%N.

Definition decimal (w : jsstring) : N :=
  fold_left (fun acc x => (10 * acc + digitValue x)%N) w 0%N.

Definition MAX_SAFE_INTEGER : N := 9007199254740991%N.

Definition numericIdentifier (w : jsstring) : option N :=
  match w with
  | [] => None
  | x :: w' =>
      if forallb (accepts Digit) w
         && (negb (N.eqb x 48) || null w')
         && N.leb (decimal w) MAX_SAFE_INTEGER
      then Some (decimal w)
      else None
  end.

(** Modelled from the spec: [semver.parse] on the string
    [major.minor.patch] that coercion assembles. *)
Definition parse (ma mi pa : jsstring) : option SemVer :=
  match numericIdentifier ma, numericIdentifier mi, numericIdentifier pa with
  | Some a, Some b, Some c => Some {| major := a; minor := b; patch := c |}
  | _, _, _ => None
  end.

(** [x || '0']. *)
Definition orZero (x : option jsstring) : jsstring :=
  match x with
  | Some w => w
  | None => js "0"
  end.

(** Modelled from the spec: [semver.coerce(version)], "coerce the raw
    string to a normalized semantic version (tolerant of
    prefixes/suffixes)", "missing components defaulted to 0"; [None] is
    the [null] the package returns for a string it cannot coerce. *)
Definition coerce (version : jsstring) : option SemVer :=
  match exec COERCE version with
  | Some m => parse (orZero (m 2)) (orZero (m 3)) (orZero (m 4))
  | None => None
  end.

(** Modelled from the spec: "standard semantic-version ordering (major,
    then minor, then patch, each compared numerically)". *)
Definition compare (a b : SemVer) : comparison :=
  match N.compare (major a) (major b) with
  | Eq =>
      match N.compare (minor a) (minor b) with
      | Eq => N.compare (patch a) (patch b)
      | o => o
      end
  | o => o
  end.

Definition gte (a b : SemVer) : bool :=
  match compare a b with
  | Lt => false
  | _ => true
  end.

(** Modelled from the spec: [semver.satisfies(v, '>=' + bound)] for a
    version without prerelease: "Versions >= threshold -> capability
    present". *)
Definition satisfies_gte (v bound : SemVer) : bool := gte v bound.

End Semver.

(** ** The calls into @actions/exec and @actions/core *)

(** The options passed to [exec.getExecOutput]. *)
Record ExecOptions :=
  { cwd : jsstring; silent : bool; ignoreReturnCode : bool }.

(** The captured result of one process invocation. *)
Record ExecOutput :=
  { exitCode : Z; stdout : jsstring; stderr : jsstring }.

(** [new Error(message)]. *)
Record Error := { message : jsstring }.

(** The diagnostics of [@actions/core]. *)
Inductive coreCall :=
| error (m : jsstring)
| setFailed (m : jsstring)
| warning (m : jsstring)
| info (m : jsstring)
| debug (m : jsstring).

(** An asynchronous function of the module, as the tree of the calls it
    makes to its collaborators: it returns, throws, or performs a call and
    goes on with the answer. *)
Inductive action (A : Type) : Type :=
| Return (a : A)
| Throw (e : Error)
| GetExecOutput (commandLine : jsstring) (args : list jsstring)
    (options : ExecOptions) (k : ExecOutput -> action A)
| IsDebug (k : bool -> action A)
| DateNow (k : Z -> action A)
| Core (c : coreCall) (k : action A).

Arguments Return {A} a.
Arguments Throw {A} e.
Arguments GetExecOutput {A} commandLine args options k.
Arguments IsDebug {A} k.
Arguments DateNow {A} k.
Arguments Core {A} c k.

Fixpoint bind {A B} (a : action A) (f : A -> action B) : action B :=
  match a with
  | Return x => f x
  | Throw e => Throw e
  | GetExecOutput c args o k => GetExecOutput c args o (fun r => bind (k r) f)
  | IsDebug k => IsDebug (fun b => bind (k b) f)
  | DateNow k => DateNow (fun z => bind (k z) f)
  | Core c k => Core c (bind k f)
  end.

Declare Scope action_scope.
Delimit Scope action_scope with action.
Notation "x <- a ;; b" := (bind a (fun x => b))
  (at level 61, a at next level, right associativity) : action_scope.
Notation "a ;; b" := (bind a (fun _ => b))
  (at level 61, right associativity) : action_scope.
Open Scope action_scope.

Definition getExecOutput (commandLine : jsstring) (args : list jsstring)
    (options : ExecOptions) : action ExecOutput :=
  GetExecOutput commandLine args options Return.
Definition isDebug : action bool := IsDebug Return.
Definition dateNow : action Z := DateNow Return.
Definition core (c : coreCall) : action unit := Core c (Return tt).

(** What a run leaves behind: the process invocations and the
    diagnostics, in the order they were made. *)
Inductive event :=
| Exec (commandLine : jsstring) (args : list jsstring) (options : ExecOptions)
| Logged (c : coreCall).

(** The world the module runs in.  The result of an invocation and the
    clock may depend on everything that happened before. *)
Record Host :=
  { execOutput : list event -> jsstring -> list jsstring -> ExecOptions
                 -> ExecOutput;
    debugging : bool;
    clock : list event -> Z }.

(** How the promise of an asynchronous function settles. *)
Inductive outcome (A : Type) : Type :=
| Resolved (a : A)
| Rejected (e : Error).

Arguments Resolved {A} a.
Arguments Rejected {A} e.

(** [run h a t] runs [a] on host [h] after the events [t]. *)
Fixpoint run {A} (h : Host) (a : action A) (t : list event)
    : outcome A * list event :=
  match a with
  | Return x => (Resolved x, t)
  | Throw e => (Rejected e, t)
  | GetExecOutput c args o k =>
      run h (k (execOutput h t c args o)) (t ++ [Exec c args o])
  | IsDebug k => run h (k (debugging h)) t
  | DateNow k => run h (k (clock h t)) t
  | Core c k => run h k (t ++ [Logged c])
  end.

Definition isExec (e : event) : bool :=
  match e with
  | Exec _ _ _ => true
  | Logged _ => false
  end.

(** The process invocations of a trace. *)
Definition invocations (t : list event) : list event := filter isExec t.

(** ** gradle.ts *)

Import RegExp.

(** Returns the gradle cli configured for the action. *)
Definition retrieveGradleCLI (useGradlew : bool) : jsstring :=
  if useGradlew then js "./gradlew" else js "gradle".

(** Detect if a root module was passed, if yes we don't require [:] for the
    commands. *)
Definition verifyModule (module : jsstring) : jsstring :=
  if jsstring_eqb module (js ":") then js "" else module.

(** The options every invocation of the module is made with. *)
Definition execOptions (gradleProjectPath : jsstring) (isDebug : bool)
    : ExecOptions :=
  {| cwd := gradleProjectPath; silent := negb isDebug; ignoreReturnCode := true |}.

(** The literal [/[\\S\\s]*?-\n(Gradle )(.+)\n-/].  In a regular expression
    literal [\\] is an escaped backslash, so the class holds the
    backslash, [S] and [s]. *)
Definition versionPattern : regex :=
  Seq (star false (OneOf (js "\S\s")))
 (Seq (Lit (js "-" ++ [LF]))
 (Seq (Group 1 (Lit (js "Gradle ")))
 (Seq (Group 2 (plus true Dot))
      (Lit ([LF] ++ js "-"))))).

(** [m[n]] where the declared type promises a string. *)
Definition group (m : captures) (n : nat) : jsstring :=
  match m n with
  | Some w => w
  | None => []
  end.

(** Fetches the version of gradle in use via the CLI. *)
Definition fetchGradleVersion (useGradlew : bool) (gradleProjectPath : jsstring)
    : action jsstring :=
  let command := retrieveGradleCLI useGradlew in
  dbg <- isDebug ;;
  versionOutput <- getExecOutput command [js "--version"]
                     (execOptions gradleProjectPath dbg) ;;
  if negb (Z.eqb (exitCode versionOutput) 0) then
    core (error (stderr versionOutput)) ;;
    core (setFailed (js "'" ++ command ++ js " --version' command failed!")) ;;
    Throw {| message := js "Failed to execute '" ++ command ++ js " --version'" |}
  else
    let output := stdout versionOutput in
    match exec versionPattern output with
    | Some version => Return (group version 2)
    | None =>
        dbg' <- isDebug ;;
        (if dbg'
         then core (debug (js "Failed to extract gradle version from: " ++ output))
         else Return tt) ;;
        Throw {| message := js "Failed to extract gradle version" |}
    end.

(** The bound of the range ['>=7.5.0']. *)
Definition threshold : Semver.SemVer :=
  {| Semver.major := 7; Semver.minor := 5; Semver.patch := 0 |}.

(** Lines 11 to 23 of [singlePropertySupport]: the decision on the version
    string that [fetchGradleVersion] returned. *)
Definition singlePropertySupportOf (version : jsstring) : action bool :=
  match Semver.coerce version with
  | Some semverVersion =>
      if Semver.satisfies_gte semverVersion threshold then Return true
      else
        core (warning
          (js "The current gradle version does not support retrieving a single property. Found version: "
           ++ version ++ js ".")) ;;
        Return false
  | None =>
      Throw {| message := js "Failed to parse gradle version: " ++ version |}
  end.

(** Detects if the used gradle version supports single properties.
    E.g. 7.5.0 or higher. *)
Definition singlePropertySupport (useGradlew : bool) (gradleProjectPath : jsstring)
    : action bool :=
  version <- fetchGradleVersion useGradlew gradleProjectPath ;;
  singlePropertySupportOf version.

(** Retrieves all dependencies from gradle by running the [dependencies]
    task for the provided project module and configuration;
    [gradleBuildConfiguration] is [None] for [undefined]. *)
Definition retrieveGradleDependencies (useGradlew : bool)
    (gradleProjectPath gradleBuildModule : jsstring)
    (gradleBuildConfiguration : option jsstring) : action jsstring :=
  start <- dateNow ;;
  let command := retrieveGradleCLI useGradlew in
  let module := verifyModule gradleBuildModule in
  match gradleBuildConfiguration with
  | Some ((_ :: _) as configuration) =>
      dbg <- isDebug ;;
      dependencyList <-
        getExecOutput command
          [js "--console"; js "plain"; module ++ js ":dependencies";
           js "--configuration"; configuration]
          (execOptions gradleProjectPath dbg) ;;
      if negb (Z.eqb (exitCode dependencyList) 0) then
        core (error (stderr dependencyList)) ;;
        core (setFailed
          (js "'" ++ command ++ js " " ++ module
           ++ js ":dependencies --configuration " ++ configuration
           ++ js "' resolution failed!")) ;;
        Throw {| message :=
          js "Failed to execute '" ++ command ++ js " " ++ module
          ++ js ":dependencies --configuration " ++ configuration ++ js "'" |}
      else
        finish <- dateNow ;;
        core (info
          (js "Completed retrieving the 'dependencies' for configuration '"
           ++ configuration ++ js "' within " ++ show_Z (finish - start)
           ++ js "ms")) ;;
        Return (stdout dependencyList)
  | _ =>
      dbg <- isDebug ;;
      dependencyList <-
        getExecOutput command
          [js "--console"; js "plain"; module ++ js ":dependencies"]
          (execOptions gradleProjectPath dbg) ;;
      if negb (Z.eqb (exitCode dependencyList) 0) then
        core (error (stderr dependencyList)) ;;
        core (setFailed
          (js "'" ++ command ++ js " " ++ module
           ++ js ":dependencies resolution failed!")) ;;
        Throw {| message :=
          js "Failed to execute '" ++ command ++ js " " ++ module
          ++ js ":dependencies'" |}
      else
        finish <- dateNow ;;
        core (info
          (js "Completed retrieving the 'dependencies' within "
           ++ show_Z (finish - start) ++ js "ms")) ;;
        Return (stdout dependencyList)
  end.

(** Retrieves the full build environment from gradle by running the
    [buildEnvironment] task for the provided project. *)
Definition retrieveGradleBuildEnvironment (useGradlew : bool)
    (gradleProjectPath : jsstring) : action jsstring :=
  start <- dateNow ;;
  let command := retrieveGradleCLI useGradlew in
  dbg <- isDebug ;;
  dependencyList <-
    getExecOutput command [js "--console"; js "plain"; js ":buildEnvironment"]
      (execOptions gradleProjectPath dbg) ;;
  if negb (Z.eqb (exitCode dependencyList) 0) then
    core (error (stderr dependencyList)) ;;
    core (setFailed (js "'" ++ command ++ js " :buildEnvironment' resolution failed!")) ;;
    Throw {| message := js "Failed to execute '" ++ command ++ js " :buildEnvironment'" |}
  else
    finish <- dateNow ;;
    core (info
      (js "Completed retrieving the 'buildEnvironment' within "
       ++ show_Z (finish - start) ++ js "ms")) ;;
    Return (stdout dependencyList).

(** The pattern [new RegExp(`[\\S\\s]*?(${property}: )(.+)\n`)] of the
    single-property mode.  In the template literal [\\S] is the class
    escape [\S], so the class holds every character, and [\n] is a line
    feed.  The property name is spliced into the pattern text; [Lit] is
    what that yields for a name without pattern syntax ([plainName]), as
    the two names the module passes, [buildFile] and [name], are. *)
Definition singlePattern (property : jsstring) : regex :=
  Seq (star false Any)
 (Seq (Group 1 (Lit (property ++ js ": ")))
 (Seq (Group 2 (plus true Dot))
      (Lit [LF]))).

(** The pattern [new RegExp(`[\\S\\s]*?(${property}: )(.+)`)] applied to
    each line of the full listing. *)
Definition linePattern (property : jsstring) : regex :=
  Seq (star false Any)
 (Seq (Group 1 (Lit (property ++ js ": ")))
      (Group 2 (plus true Dot))).

(** The characters with a meaning in a pattern. *)
Definition syntaxCharacter (x : N) : bool :=
  existsb (N.eqb x) (js "^$\.*+?()[]{}|/").

(** A property name that stands for itself inside a pattern. *)
Definition plainName (property : jsstring) : bool :=
  forallb (fun x => negb (syntaxCharacter x) && negb (lineTerminator x)) property.

(** The value of [matched] at line 192: [None] is [undefined], [Some None]
    is [null] and [Some (Some m)] a match. *)
Definition matchProperty (singlePropertySupported : bool)
    (property output : jsstring) : option (option captures) :=
  if singlePropertySupported then
    Some (exec (singlePattern property) output)
  else
    find (fun it => match it with Some _ => true | None => false end)
         (map (fun it => exec (linePattern property) it) (split_lines output)).

(** The arguments of the [properties] invocation, lines 164 to 169. *)
Definition propertyArgs (singlePropertySupported : bool)
    (module property : jsstring) : list jsstring :=
  if singlePropertySupported
  then [module ++ js ":properties"; js "-q"; js "--property"; property]
  else [module ++ js ":properties"; js "-q"].

(** Retrieves the [property] from a given [module] name; [None] is
    [undefined]. *)
Definition retrieveGradleProperty (useGradlew : bool)
    (gradleProjectPath gradleBuildModule property : jsstring)
    : action (option jsstring) :=
  singlePropertySupported <- singlePropertySupport useGradlew gradleProjectPath ;;
  let command := retrieveGradleCLI useGradlew in
  let module := verifyModule gradleBuildModule in
  let commandArgs := propertyArgs singlePropertySupported module property in
  dbg <- isDebug ;;
  propertyOutput <-
    getExecOutput command commandArgs (execOptions gradleProjectPath dbg) ;;
  if negb (Z.eqb (exitCode propertyOutput) 0) then
    core (error (stderr propertyOutput)) ;;
    core (setFailed
      (js "'" ++ command ++ js " " ++ module ++ js ":properties' retrieval failed!")) ;;
    Throw {| message :=
      js "Failed to execute '" ++ command ++ js " " ++ module ++ js ":properties'" |}
  else
    let output := stdout propertyOutput in
    match matchProperty singlePropertySupported property output with
    | Some (Some matched) => Return (matched 2)
    | _ =>
        core (warning
          (js "Failed to retrieve the '" ++ property ++ js "' for '"
           ++ gradleBuildModule ++ js "'")) ;;
        Return None
    end.

(** Retrieves the [buildFile] property from a given module name in the
    configured gradle project. *)
Definition retrieveGradleBuildPath (useGradlew : bool)
    (gradleProjectPath gradleBuildModule : jsstring) : action (option jsstring) :=
  retrieveGradleProperty useGradlew gradleProjectPath gradleBuildModule
    (js "buildFile").

(** Retrieves the [name] property from the configured gradle project. *)
Definition retrieveGradleProjectName (useGradlew : bool)
    (gradleProjectPath : jsstring) : action (option jsstring) :=
  retrieveGradleProperty useGradlew gradleProjectPath (js ":") (js "name").

(** ** Hosts and outputs used to state the properties *)

(** A process result with exit code 0 and the given standard output. *)
Definition succeeded (output : jsstring) : ExecOutput :=
  {| exitCode := 0; stdout := output; stderr := [] |}.

(** A process result with a non-zero exit code. *)
Definition failed (code : Z) (errors : jsstring) : ExecOutput :=
  {| exitCode := code; stdout := []; stderr := errors |}.

Definition isVersionQuery (args : list jsstring) : bool :=
  match args with
  | [a] => jsstring_eqb a (js "--version")
  | _ => false
  end.

(** A host that answers [--version] with one result and every other
    invocation with another. *)
Definition scripted (version other : ExecOutput) : Host :=
  {| execOutput := fun _ _ args _ => if isVersionQuery args then version else other;
     debugging := false;
     clock := fun t => Z.of_nat (List.length t) |}.

(** Lines joined by line feeds, each line closed by one. *)
Fixpoint unlines (ls : list jsstring) : jsstring :=
  match ls with
  | [] => []
  | l :: ls' => l ++ LF :: unlines ls'
  end.

(** The banner gradle prints for [--version]. *)
Definition banner (version : jsstring) : jsstring :=
  unlines [js "------"; js "Gradle " ++ version; js "------"].

(** The host answers the [--version] invocation made after [t] with exit
    code 0 and the standard output [output]. *)
Definition printsVersion (h : Host) (t : list event) (useGradlew : bool)
    (gradleProjectPath output : jsstring) : Prop :=
  let r := execOutput h t (retrieveGradleCLI useGradlew) [js "--version"]
             (execOptions gradleProjectPath (debugging h)) in
  exitCode r = 0%Z /\ stdout r = output.

(** The two classes of failure of the specification, told apart by the
    message of the [Error] thrown. *)
Definition ExecutionError (e : Error) : bool :=
  startsWith (js "Failed to execute '") (message e).

Definition ParseError (e : Error) : bool :=
  jsstring_eqb (message e) (js "Failed to extract gradle version")
  || startsWith (js "Failed to parse gradle version: ") (message e).

(** The banner shape the specification documents for the version probe:
    a line of dashes, a line beginning with the product name followed by a
    version string, then another line of dashes. *)
Definition dashes (l : jsstring) : bool :=
  negb (null l) && forallb (N.eqb 45) l.

Definition productLine (l : jsstring) : bool :=
  startsWith (js "Gradle ") l && Nat.ltb 7 (List.length l).

Fixpoint bannerIn (ls : list jsstring) : bool :=
  match ls with
  | [] => false
  | l1 :: ls' =>
      match ls' with
      | l2 :: l3 :: _ => (dashes l1 && productLine l2 && dashes l3) || bannerIn ls'
      | _ => false
      end
  end.

Definition documentedBanner (output : jsstring) : bool :=
  bannerIn (split_lines output).

(** What the version pattern looks for: a dash ending a line, a next line
    made of [Gradle ] and a non-empty [version] without line terminator,
    and a dash starting the line after. *)
Definition delimited (version : jsstring) : jsstring :=
  js "-" ++ [LF] ++ js "Gradle " ++ version ++ [LF] ++ js "-".

Definition oneLine (w : jsstring) : bool :=
  negb (null w) && forallb (accepts Dot) w.

(** The opening of the delimited version line. *)
Definition opening : jsstring := js "-" ++ [LF] ++ js "Gradle ".

(** What [versionPattern] does once its lazy quantifier has consumed [w]:
    the rest of the pattern, matched at [rest]. *)
Definition versionTail (w rest : jsstring) : option captures :=
  if startsWith (js "-" ++ [LF]) rest then
    let rest1 := skipn 2 rest in
    if startsWith (js "Gradle ") rest1 then
      repeatClass true (accepts Dot) 1 None (skipn 7 rest1)
        (fun w2 rest2 =>
           if startsWith ([LF] ++ js "-") rest2
           then Some (capture 0
                        (w ++ (js "-" ++ [LF]) ++ js "Gradle " ++ w2 ++ [LF] ++ js "-")
                        (capture 2 w2 (capture 1 (js "Gradle ") noCaptures)))
           else None)
    else None
  else None.

(** Whether some line feed of [s] is directly followed by a dash. *)
Fixpoint dashAfterLF (s : jsstring) : bool :=
  match s with
  | [] => false
  | x :: s' => (N.eqb x LF && startsWith (js "-") s') || dashAfterLF s'
  end.

(** The [--version] invocation and the result the host gives it after
    the events [t]. *)
Definition versionExec (h : Host) (useGradlew : bool) (gradleProjectPath : jsstring)
    : event :=
  Exec (retrieveGradleCLI useGradlew) [js "--version"]
       (execOptions gradleProjectPath (debugging h)).

Definition versionOutput (h : Host) (t : list event) (useGradlew : bool)
    (gradleProjectPath : jsstring) : ExecOutput :=
  execOutput h t (retrieveGradleCLI useGradlew) [js "--version"]
    (execOptions gradleProjectPath (debugging h)).

(** The [properties] invocation and the result the host gives it. *)
Definition propertyExec (h : Host) (useGradlew : bool)
    (gradleProjectPath gradleBuildModule property : jsstring)
    (singlePropertySupported : bool) : event :=
  Exec (retrieveGradleCLI useGradlew)
       (propertyArgs singlePropertySupported (verifyModule gradleBuildModule) property)
       (execOptions gradleProjectPath (debugging h)).

Definition propertyOutput (h : Host) (t : list event) (useGradlew : bool)
    (gradleProjectPath gradleBuildModule property : jsstring)
    (singlePropertySupported : bool) : ExecOutput :=
  execOutput h t (retrieveGradleCLI useGradlew)
    (propertyArgs singlePropertySupported (verifyModule gradleBuildModule) property)
    (execOptions gradleProjectPath (debugging h)).

(** After the events [t] the capability probe on [h] resolves to
    [singlePropertySupported], and the [properties] invocation that follows
    exits with code 0 and prints [output]. *)
Definition answersProperties (h : Host) (t : list event) (useGradlew : bool)
    (gradleProjectPath gradleBuildModule property : jsstring)
    (singlePropertySupported : bool) (output : jsstring) : Prop :=
  exists t',
    run h (singlePropertySupport useGradlew gradleProjectPath) t
      = (Resolved singlePropertySupported, t')
    /\ exitCode (propertyOutput h t' useGradlew gradleProjectPath
                   gradleBuildModule property singlePropertySupported) = 0%Z
    /\ stdout (propertyOutput h t' useGradlew gradleProjectPath
                  gradleBuildModule property singlePropertySupported) = output.

(** The test [it.match(...) !== null] of the full-listing mode on one
    line. *)
Definition lineMatches (property line : jsstring) : bool :=
  match exec (linePattern property) line with
  | Some _ => true
  | None => false
  end.

(** The arguments of the [dependencies] invocation, for either branch of
    [retrieveGradleDependencies]. *)
Definition dependenciesArgs (module : jsstring)
    (gradleBuildConfiguration : option jsstring) : list jsstring :=
  [js "--console"; js "plain"; module ++ js ":dependencies"]
  ++ match gradleBuildConfiguration with
     | Some ((_ :: _) as configuration) => [js "--configuration"; configuration]
     | _ => []
     end.

(** ** Further notions used to state properties of the runs *)


(** The carriage return. *)
Definition CR : N := 13%N.

(** What [singlePattern] does once its lazy quantifier has consumed [w]:
    the rest of the pattern, matched at [rest]. *)
Definition singleTail (property w rest : jsstring) : option captures :=
  if startsWith (property ++ js ": ") rest then
    repeatClass true (accepts Dot) 1 None
      (skipn (List.length (property ++ js ": ")) rest)
      (fun w2 rest2 =>
         if startsWith [LF] rest2
         then Some (capture 0 (w ++ (property ++ js ": ") ++ w2 ++ [LF])
                      (capture 2 w2 (capture 1 (property ++ js ": ") noCaptures)))
         else None)
  else None.

(** The same for [linePattern]. *)
Definition lineTail (property w rest : jsstring) : option captures :=
  if startsWith (property ++ js ": ") rest then
    repeatClass true (accepts Dot) 1 None
      (skipn (List.length (property ++ js ": ")) rest)
      (fun w2 rest2 =>
         Some (capture 0 (w ++ (property ++ js ": ") ++ w2)
                 (capture 2 w2 (capture 1 (property ++ js ": ") noCaptures))))
  else None.

(** The second group of a match result, [None] when there is no match. *)
Definition second (o : option captures) : option (option jsstring) :=
  option_map (fun m : captures => m 2) o.

(** The value [retrieveGradleProperty] returns for an output, lines 192
    to 197. *)
Definition propertyValue (singlePropertySupported : bool)
    (property output : jsstring) : option jsstring :=
  match matchProperty singlePropertySupported property output with
  | Some (Some matched) => matched 2
  | _ => None
  end.

(** Whether [core.setFailed] was called in a trace. *)
Definition isSetFailed (e : event) : bool :=
  match e with
  | Logged (setFailed _) => true
  | _ => false
  end.

Definition markedFailed (t : list event) : bool := existsb isSetFailed t.

(** Whether [core.warning] was called in a trace. *)
Definition isWarning (e : event) : bool :=
  match e with
  | Logged (warning _) => true
  | _ => false
  end.

Definition warned (t : list event) : bool := existsb isWarning t.

(** Whether an outcome is a rejection with an execution error. *)
Definition executionFailure {A} (o : outcome A) : bool :=
  match o with
  | Rejected e => ExecutionError e
  | Resolved _ => false
  end.

(** Whether some dash of [s] is directly followed by a line feed. *)
Fixpoint dashBeforeLF (s : jsstring) : bool :=
  match s with
  | [] => false
  | x :: s' => (N.eqb x 45 && startsWith [LF] s') || dashBeforeLF s'
  end.

(** Whether some character of [s] other than a line terminator is directly
    followed by a line feed. *)
Fixpoint closedLine (s : jsstring) : bool :=
  match s with
  | [] => false
  | x :: s' => (accepts Dot x && startsWith [LF] s') || closedLine s'
  end.

(** An invocation of the configured command line in the project path,
    silent unless debugging, whose exit code is left to the caller. *)
Definition madeIn (h : Host) (useGradlew : bool) (gradleProjectPath : jsstring)
    (e : event) : Prop :=
  match e with
  | Exec commandLine _ options =>
      commandLine = (if useGradlew then js "./gradlew" else js "gradle")
      /\ cwd options = gradleProjectPath
      /\ silent options = negb (debugging h)
      /\ ignoreReturnCode options = true
  | Logged _ => False
  end.

(** * Properties *)

(** ** Strings *)

Lemma startsWith_app (p s : jsstring) : startsWith p (p ++ s) = true.
Proof.
  induction p as [|x p IH]; simpl; [reflexivity|].
  now rewrite N.eqb_refl.
Qed.

Lemma startsWith_split (p s : jsstring) :
  startsWith p s = true -> s = p ++ skipn (List.length p) s.
Proof.
  revert s; induction p as [|x p IH]; intros [|y s]; simpl; try easy.
  intros H. apply andb_true_iff in H as [Hx Hp].
  apply N.eqb_eq in Hx. subst y. f_equal. now apply IH.
Qed.

Lemma skipn_exact (p s : jsstring) : skipn (List.length p) (p ++ s) = s.
Proof. induction p; simpl; auto. Qed.

Lemma jsstring_eqb_eq (a b : jsstring) : jsstring_eqb a b = true <-> a = b.
Proof.
  unfold jsstring_eqb. destruct (list_eq_dec N.eq_dec a b); split; congruence.
Qed.

(** ** The matcher *)

Module RegExpFacts.
Import RegExp.

Lemma repeatClass_eq greedy p min max s k :
  repeatClass greedy p min max s k =
  let stop := if Nat.eqb min 0 then k [] s else None in
  let more :=
    match s with
    | x :: s' =>
        if p x && negb (exhausted max)
        then repeatClass greedy p (Nat.pred min) (option_map Nat.pred max) s'
               (fun w rest => k (x :: w) rest)
        else None
    | [] => None
    end in
  if greedy
  then match more with Some r => Some r | None => stop end
  else match stop with Some r => Some r | None => more end.
Proof. destruct s; reflexivity. Qed.

(** A quantifier that succeeds has consumed a run of characters of the
    class, within its bounds, after which the continuation succeeded. *)
Lemma repeatClass_sound greedy p s :
  forall min max k res,
    repeatClass greedy p min max s k = Some res ->
    exists w rest,
      s = w ++ rest /\ forallb p w = true /\ min <= List.length w
      /\ (forall m, max = Some m -> List.length w <= m)
      /\ k w rest = Some res.
Proof.
  induction s as [|x s IH]; intros min max k res H;
    rewrite repeatClass_eq in H; cbv zeta in H.
  - assert (Hs : (if Nat.eqb min 0 then k [] [] else None) = Some res).
    { destruct greedy; destruct (if Nat.eqb min 0 then _ else None);
        congruence. }
    destruct (Nat.eqb_spec min 0); [|discriminate]. subst.
    exists [], []. repeat split; auto. simpl. intros; lia.
  - assert (Hc :
      (if Nat.eqb min 0 then k [] (x :: s) else None) = Some res
      \/ (if p x && negb (exhausted max)
          then repeatClass greedy p (Nat.pred min) (option_map Nat.pred max) s
                 (fun w rest => k (x :: w) rest)
          else None) = Some res).
    { destruct greedy.
      - destruct (if p x && negb (exhausted max) then _ else None);
          [right; exact H | left; exact H].
      - destruct (if Nat.eqb min 0 then _ else None);
          [left; exact H | right; exact H]. }
    destruct Hc as [Hs | Hm].
    + destruct (Nat.eqb_spec min 0); [|discriminate]. subst.
      exists [], (x :: s). repeat split; auto. simpl. intros; lia.
    + destruct (p x) eqn:Hp; [|discriminate].
      destruct (exhausted max) eqn:He; [discriminate|]. simpl in Hm.
      apply IH in Hm as (w & rest & -> & Hw & Hmin & Hmax & Hk).
      exists (x :: w), rest. simpl. rewrite Hp, Hw.
      repeat split; auto; [lia|].
      intros m ->. simpl in *. destruct m; [discriminate|].
      specialize (Hmax m eq_refl). lia.
Qed.

(** A greedy unbounded quantifier in front of a character outside the
    class, or of the end of the input, offers the whole run first. *)
Lemma repeatClass_greedy_run p w :
  forall min rest k res,
    forallb p w = true ->
    match rest with [] => True | x :: _ => p x = false end ->
    min <= List.length w ->
    k w rest = Some res ->
    repeatClass true p min None (w ++ rest) k = Some res.
Proof.
  induction w as [|x w IH]; intros min rest k res Hw Hrest Hmin Hk;
    rewrite repeatClass_eq; cbv zeta; cbn [app option_map exhausted negb];
    simpl in Hw, Hmin.
  - assert (min = 0) by lia. subst. cbn [Nat.eqb].
    destruct rest as [|y rest]; [exact Hk|].
    rewrite Hrest. cbn [andb]. exact Hk.
  - apply andb_true_iff in Hw as [Hx Hw]. rewrite Hx. cbn [andb].
    erewrite IH; eauto. lia.
Qed.

(** A lazy unbounded quantifier stops at the first split of a run of the
    class at which the continuation succeeds. *)
Lemma repeatClass_lazy_first p pre :
  forall rest k res,
    forallb p pre = true ->
    (forall a b, pre = a ++ b -> b <> [] -> k a (b ++ rest) = None) ->
    k pre rest = Some res ->
    repeatClass false p 0 None (pre ++ rest) k = Some res.
Proof.
  induction pre as [|x pre IH]; intros rest k res Hp Hnone Hk;
    rewrite repeatClass_eq; cbv zeta;
    cbn [app option_map exhausted negb Nat.eqb]; simpl in Hp.
  - now rewrite Hk.
  - apply andb_true_iff in Hp as [Hx Hp].
    pose proof (Hnone [] (x :: pre) eq_refl) as H0. cbn [app] in H0.
    rewrite H0 by discriminate.
    rewrite Hx. cbn [andb Nat.pred].
    apply IH; auto.
    intros a b -> Hb. apply (Hnone (x :: a) b); auto.
Qed.

(** A search that succeeds made a successful attempt at some position. *)
Lemma search_sound r s :
  forall bos c,
    search r bos s = Some c ->
    exists pre rest b, s = pre ++ rest /\ attempt r b rest = Some c.
Proof.
  induction s as [|x s IH]; intros bos c H; simpl in H.
  - destruct (attempt r bos []) eqn:Ha; [|discriminate].
    exists [], [], bos. split; [reflexivity|congruence].
  - destruct (attempt r bos (x :: s)) eqn:Ha.
    + exists [], (x :: s), bos. split; [reflexivity|congruence].
    + apply IH in H as (pre & rest & b & -> & H).
      exists (x :: pre), rest, b. auto.
Qed.

End RegExpFacts.
(** ** The patterns of gradle.ts *)

Import RegExp RegExpFacts.

Lemma attempt_single p b s :
  attempt (singlePattern p) b s =
  repeatClass false (accepts Any) 0 None s (fun w rest =>
    if startsWith (p ++ js ": ") rest then
      repeatClass true (accepts Dot) 1 None (skipn (List.length (p ++ js ": ")) rest)
        (fun w2 rest2 =>
           if startsWith [LF] rest2
           then Some (capture 0 (w ++ (p ++ js ": ") ++ w2 ++ [LF])
                        (capture 2 w2 (capture 1 (p ++ js ": ") noCaptures)))
           else None)
    else None).
Proof. reflexivity. Qed.

Lemma attempt_line p b s :
  attempt (linePattern p) b s =
  repeatClass false (accepts Any) 0 None s (fun w rest =>
    if startsWith (p ++ js ": ") rest then
      repeatClass true (accepts Dot) 1 None (skipn (List.length (p ++ js ": ")) rest)
        (fun w2 rest2 =>
           Some (capture 0 (w ++ (p ++ js ": ") ++ w2)
                        (capture 2 w2 (capture 1 (p ++ js ": ") noCaptures))))
    else None).
Proof. reflexivity. Qed.

Lemma attempt_version b s :
  attempt versionPattern b s =
  repeatClass false (accepts (OneOf (js "\S\s"))) 0 None s versionTail.
Proof. reflexivity. Qed.

(** *** Auxiliary facts on strings and searches *)

Lemma indexOf_first p pre :
  forall rest,
    indexOf p (pre ++ rest) = Some (List.length pre) ->
    forall a b, pre = a ++ b -> b <> [] -> startsWith p (b ++ rest) = false.
Proof.
  intros rest H a; revert pre H.
  induction a as [|x a IH]; intros pre H b -> Hb.
  - simpl in H. destruct b as [|y b]; [congruence|].
    simpl in H. destruct (startsWith p ((y :: b) ++ rest)) eqn:E; [|reflexivity].
    simpl in E. rewrite E in H. discriminate.
  - simpl in H.
    destruct (startsWith p (x :: (a ++ b) ++ rest)); [discriminate|].
    destruct (indexOf p ((a ++ b) ++ rest)) eqn:E; [|discriminate].
    simpl in H. injection H as H. subst.
    eapply IH; eauto.
Qed.

Lemma indexOf_none p s :
  indexOf p s = None ->
  forall a b, s = a ++ b -> startsWith p b = false.
Proof.
  intros H a; revert s H. induction a as [|x a IH]; intros s H b ->.
  - simpl in H. destruct b; simpl in H;
      destruct (startsWith p _) eqn:E; try discriminate; reflexivity.
  - simpl in H. destruct (startsWith p (x :: a ++ b)); [discriminate|].
    destruct (indexOf p (a ++ b)) eqn:E; [discriminate|].
    eapply IH; eauto.
Qed.

Lemma oneLine_run v :
  oneLine v = true -> forallb (accepts Dot) v = true /\ 1 <= List.length v.
Proof.
  unfold oneLine. intros H. apply andb_true_iff in H as [Hn Hv].
  split; [exact Hv|]. destruct v; simpl in *; [discriminate|lia].
Qed.

Lemma run_oneLine v :
  forallb (accepts Dot) v = true -> 1 <= List.length v -> oneLine v = true.
Proof.
  intros Hv Hl. unfold oneLine. rewrite Hv.
  destruct v; simpl in *; [lia|reflexivity].
Qed.

(** The first attempt of a search is the one at the start. *)
Lemma search_attempt r bos s c :
  attempt r bos s = Some c -> search r bos s = Some c.
Proof. intros H. destruct s; simpl; now rewrite H. Qed.


Lemma search_first r (P : captures -> Prop) pre :
  forall rest bos,
    (forall a c b m, pre = a ++ c -> attempt r b (c ++ rest) = Some m -> P m) ->
    (forall b, exists m, attempt r b rest = Some m /\ P m) ->
    exists m, search r bos (pre ++ rest) = Some m /\ P m.
Proof.
  induction pre as [|x pre IH]; intros rest bos Hpre Hrest.
  - destruct (Hrest bos) as (m & Hm & HP). exists m. split; auto.
    now apply search_attempt.
  - simpl. destruct (attempt r bos (x :: pre ++ rest)) eqn:E.
    + exists c. split; auto. exact (Hpre [] (x :: pre) bos c eq_refl E).
    + apply IH; [|exact Hrest].
      intros a c b m -> Hm. exact (Hpre (x :: a) c b m eq_refl Hm).
Qed.

(** A lazy quantifier succeeds as soon as the continuation does on some
    split of a run of the class. *)
Lemma repeatClass_lazy_some p pre :
  forall rest k,
    forallb p pre = true ->
    k pre rest <> None ->
    repeatClass false p 0 None (pre ++ rest) k <> None.
Proof.
  induction pre as [|x pre IH]; intros rest k Hp Hk;
    rewrite repeatClass_eq; cbv zeta;
    cbn [app option_map exhausted negb Nat.eqb]; simpl in Hp.
  - destruct (k [] rest); congruence.
  - apply andb_true_iff in Hp as [Hx Hp].
    destruct (k [] (x :: pre ++ rest)); [discriminate|].
    rewrite Hx. cbn [andb Nat.pred]. now apply IH.
Qed.

(** A greedy quantifier whose continuation accepts every run succeeds
    when the input starts with enough characters of the class. *)
Lemma repeatClass_greedy_some p s :
  forall min k,
    (forall w rest, k w rest <> None) ->
    (exists w rest, s = w ++ rest /\ forallb p w = true /\ min <= List.length w) ->
    repeatClass true p min None s k <> None.
Proof.
  induction s as [|x s IH]; intros min k Hk (w & rest & Hs & Hw & Hmin);
    rewrite repeatClass_eq; cbv zeta; cbn [option_map exhausted negb].
  - destruct w; [|discriminate]. simpl in Hmin.
    assert (min = 0) by lia. subst. simpl. apply Hk.
  - destruct (p x) eqn:Hx; cbn [andb].
    + match goal with
      | |- match ?R with _ => _ end <> None =>
          assert (HR : R <> None); [|destruct R; congruence]
      end.
      apply IH; [intros; apply Hk|].
      destruct w as [|y w]; simpl in *.
      * exists [], s. repeat split; auto. lia.
      * injection Hs as -> ->. apply andb_true_iff in Hw as [_ Hw].
        exists w, rest. repeat split; auto. lia.
    + destruct w as [|y w]; simpl in *.
      * assert (min = 0) by lia. subst. simpl. apply Hk.
      * injection Hs as -> ->. rewrite Hx in Hw. discriminate.
Qed.

Lemma run_unique (p : N -> bool) (w1 : jsstring) :
  forall w2 r1 r2,
    w1 ++ r1 = w2 ++ r2 ->
    forallb p w1 = true -> forallb p w2 = true ->
    match r1 with [] => True | x :: _ => p x = false end ->
    match r2 with [] => True | x :: _ => p x = false end ->
    w1 = w2 /\ r1 = r2.
Proof.
  induction w1 as [|x w1 IH]; intros [|y w2] r1 r2 E H1 H2 S1 S2; simpl in *.
  - auto.
  - subst r1. apply andb_true_iff in H2 as [Hy _]. congruence.
  - subst r2. apply andb_true_iff in H1 as [Hx _]. congruence.
  - injection E as -> E.
    apply andb_true_iff in H1 as [_ H1]. apply andb_true_iff in H2 as [_ H2].
    destruct (IH w2 r1 r2 E H1 H2 S1 S2) as [-> ->]. auto.
Qed.

Lemma any_all (w : jsstring) : forallb (accepts Any) w = true.
Proof. induction w; simpl; auto. Qed.

(** *** The property patterns *)

Lemma single_sound p s m :
  exec (singlePattern p) s = Some m ->
  exists pre v post,
    s = pre ++ (p ++ js ": ") ++ v ++ LF :: post
    /\ oneLine v = true /\ m 2 = Some v.
Proof.
  intros H. apply search_sound in H as (pre & rest & b & -> & H).
  rewrite attempt_single in H.
  apply repeatClass_sound in H as (w & rest1 & -> & _ & _ & _ & H).
  destruct (startsWith (p ++ js ": ") rest1) eqn:Hl; [|discriminate].
  apply startsWith_split in Hl. rewrite Hl in H at 1.
  rewrite skipn_exact in H.
  remember (skipn (List.length (p ++ js ": ")) rest1) as rest2.
  apply repeatClass_sound in H as (v & rest3 & Hr & Hv & Hlen & _ & H).
  destruct rest3 as [|y rest3]; [discriminate|].
  cbn [startsWith] in H.
  destruct (N.eqb_spec LF y); [|discriminate]. subst y.
  cbn [andb] in H. injection H as <-.
  exists (pre ++ w), v, rest3. repeat split.
  - rewrite Hl, Hr, <- !app_assoc. reflexivity.
  - now apply run_oneLine.
Qed.

Lemma single_at p pre v post b :
  (forall a c, pre = a ++ c -> c <> [] ->
     startsWith (p ++ js ": ") (c ++ (p ++ js ": ") ++ v ++ LF :: post) = false) ->
  oneLine v = true ->
  exists m,
    attempt (singlePattern p) b (pre ++ (p ++ js ": ") ++ v ++ LF :: post) = Some m
    /\ m 2 = Some v.
Proof.
  intros Hfirst Hv. apply oneLine_run in Hv as [Hv Hlen].
  eexists. split.
  - rewrite attempt_single. apply repeatClass_lazy_first.
    + clear. induction pre; simpl; auto.
    + intros a c Hpre Hc. now rewrite (Hfirst a c Hpre Hc).
    + rewrite startsWith_app, skipn_exact.
      apply repeatClass_greedy_run; auto. reflexivity.
  - reflexivity.
Qed.

Lemma single_first p pre v post :
  indexOf (p ++ js ": ") (pre ++ (p ++ js ": ") ++ v ++ LF :: post)
    = Some (List.length pre) ->
  oneLine v = true ->
  exists m,
    exec (singlePattern p) (pre ++ (p ++ js ": ") ++ v ++ LF :: post) = Some m
    /\ m 2 = Some v.
Proof.
  intros Hi Hv.
  destruct (single_at p pre v post true) as (m & Hm & H2); auto.
  - intros a c Hpre Hc. eapply indexOf_first; eauto.
  - exists m. split; [|exact H2]. now apply search_attempt.
Qed.

Lemma single_complete p pre v post :
  oneLine v = true ->
  exec (singlePattern p) (pre ++ (p ++ js ": ") ++ v ++ LF :: post) <> None.
Proof.
  intros Hv. apply oneLine_run in Hv as [Hv Hlen].
  unfold exec.
  destruct (attempt (singlePattern p) true (pre ++ (p ++ js ": ") ++ v ++ LF :: post))
    eqn:E.
  - erewrite search_attempt; eauto. discriminate.
  - exfalso. revert E. rewrite attempt_single.
    apply repeatClass_lazy_some; [apply any_all|].
    rewrite startsWith_app, skipn_exact.
    erewrite repeatClass_greedy_run; eauto; try discriminate; reflexivity.
Qed.

Lemma line_sound p s m :
  exec (linePattern p) s = Some m ->
  exists pre v post,
    s = pre ++ (p ++ js ": ") ++ v ++ post
    /\ oneLine v = true /\ m 2 = Some v.
Proof.
  intros H. apply search_sound in H as (pre & rest & b & -> & H).
  rewrite attempt_line in H.
  apply repeatClass_sound in H as (w & rest1 & -> & _ & _ & _ & H).
  destruct (startsWith (p ++ js ": ") rest1) eqn:Hl; [|discriminate].
  apply startsWith_split in Hl. rewrite Hl in H at 1.
  rewrite skipn_exact in H.
  remember (skipn (List.length (p ++ js ": ")) rest1) as rest2.
  apply repeatClass_sound in H as (v & rest3 & Hr & Hv & Hlen & _ & H).
  injection H as <-.
  exists (pre ++ w), v, rest3. repeat split.
  - rewrite Hl, Hr, <- !app_assoc. reflexivity.
  - now apply run_oneLine.
Qed.

Lemma line_first p pre v post :
  indexOf (p ++ js ": ") (pre ++ (p ++ js ": ") ++ v ++ post)
    = Some (List.length pre) ->
  oneLine v = true ->
  match post with [] => True | x :: _ => lineTerminator x = true end ->
  exists m,
    exec (linePattern p) (pre ++ (p ++ js ": ") ++ v ++ post) = Some m
    /\ m 2 = Some v.
Proof.
  intros Hi Hv Hpost. apply oneLine_run in Hv as [Hv Hlen].
  eexists. split.
  - apply search_attempt. rewrite attempt_line. apply repeatClass_lazy_first.
    + apply any_all.
    + intros a c Hpre Hc. now rewrite (indexOf_first _ _ _ Hi a c Hpre Hc).
    + rewrite startsWith_app, skipn_exact.
      apply repeatClass_greedy_run; auto.
      destruct post; auto. simpl. now rewrite Hpost.
  - reflexivity.
Qed.

Lemma line_complete p pre v post :
  oneLine v = true ->
  exec (linePattern p) (pre ++ (p ++ js ": ") ++ v ++ post) <> None.
Proof.
  intros Hv. apply oneLine_run in Hv as [Hv Hlen].
  unfold exec.
  destruct (attempt (linePattern p) true (pre ++ (p ++ js ": ") ++ v ++ post))
    eqn:E.
  - erewrite search_attempt; eauto. discriminate.
  - exfalso. revert E. rewrite attempt_line.
    apply repeatClass_lazy_some; [apply any_all|].
    rewrite startsWith_app, skipn_exact.
    apply repeatClass_greedy_some; [discriminate|].
    exists v, post. auto.
Qed.

(** A line without the label does not match. *)
Lemma line_absent p s :
  indexOf (p ++ js ": ") s = None -> exec (linePattern p) s = None.
Proof.
  intros Hi. destruct (exec (linePattern p) s) eqn:E; [|reflexivity].
  apply line_sound in E as (pre & v & post & -> & _).
  pose proof (indexOf_none _ _ Hi pre _ eq_refl) as H.
  rewrite startsWith_app in H. discriminate.
Qed.

(** *** The version pattern *)

Lemma versionTail_sound w rest m :
  versionTail w rest = Some m ->
  startsWith opening rest = true
  /\ exists v post,
       rest = delimited v ++ post /\ oneLine v = true /\ m 2 = Some v.
Proof.
  unfold versionTail. intros H.
  destruct (startsWith (js "-" ++ [LF]) rest) eqn:H1; [|discriminate].
  cbv zeta in H.
  destruct (startsWith (js "Gradle ") (skipn 2 rest)) eqn:H2; [|discriminate].
  split.
  { apply startsWith_split in H1, H2.
    change (List.length (js "-" ++ [LF])) with 2 in H1.
    rewrite H1, H2. unfold opening. rewrite <- !app_assoc.
    rewrite !app_assoc. apply startsWith_app. }
  apply startsWith_split in H1, H2.
  change (List.length (js "-" ++ [LF])) with 2 in H1.
  change (List.length (js "Gradle ")) with 7 in H2.
  remember (skipn 2 rest) as rest2. remember (skipn 7 rest2) as rest3.
  apply repeatClass_sound in H as (v & rest4 & Hr & Hv & Hlen & _ & H).
  destruct (startsWith ([LF] ++ js "-") rest4) eqn:H4; [|discriminate].
  apply startsWith_split in H4.
  injection H as <-.
  exists v, (skipn (List.length ([LF] ++ js "-")) rest4).
  repeat split.
  - rewrite H1, H2, Hr, H4 at 1. unfold delimited.
    rewrite <- !app_assoc. reflexivity.
  - now apply run_oneLine.
Qed.

Lemma versionTail_at w v post :
  oneLine v = true ->
  exists m, versionTail w (delimited v ++ post) = Some m /\ m 2 = Some v.
Proof.
  intros Hv. apply oneLine_run in Hv as [Hv Hlen].
  eexists. split.
  - unfold versionTail.
    assert (E1 : startsWith (js "-" ++ [LF]) (delimited v ++ post) = true)
      by reflexivity.
    assert (E2 : skipn 2 (delimited v ++ post)
                 = js "Gradle " ++ v ++ [LF] ++ js "-" ++ post)
      by (unfold delimited; rewrite <- !app_assoc; reflexivity).
    rewrite E1. cbv zeta. rewrite E2, startsWith_app.
    change 7 with (List.length (js "Gradle ")). rewrite skipn_exact.
    apply repeatClass_greedy_run; auto; reflexivity.
  - reflexivity.
Qed.

(** Two delimited lines at the same place hold the same version. *)
Lemma delimited_unique v v' post post' :
  delimited v ++ post = delimited v' ++ post' ->
  oneLine v = true -> oneLine v' = true -> v = v'.
Proof.
  unfold delimited. rewrite <- !app_assoc. intros E Hv Hv'.
  apply oneLine_run in Hv as [Hv _]. apply oneLine_run in Hv' as [Hv' _].
  apply app_inv_head in E. apply app_inv_head in E. apply app_inv_head in E.
  now destruct (run_unique (accepts Dot) v v' _ _ E Hv Hv' eq_refl eq_refl).
Qed.

Lemma version_sound s m :
  exec versionPattern s = Some m ->
  exists pre v post,
    s = pre ++ delimited v ++ post /\ oneLine v = true /\ m 2 = Some v.
Proof.
  intros H. apply search_sound in H as (pre & rest & b & -> & H).
  rewrite attempt_version in H.
  apply repeatClass_sound in H as (w & rest1 & -> & _ & _ & _ & H).
  apply versionTail_sound in H as (_ & v & post & -> & Hv & Hm).
  exists (pre ++ w), v, post. rewrite <- !app_assoc. auto.
Qed.

Lemma version_at v post b :
  oneLine v = true ->
  exists m, attempt versionPattern b (delimited v ++ post) = Some m
            /\ m 2 = Some v.
Proof.
  intros Hv. destruct (versionTail_at [] v post Hv) as (m & Hm & H2).
  exists m. split; [|exact H2].
  rewrite attempt_version.
  apply (repeatClass_lazy_first _ [] (delimited v ++ post)); auto.
  intros [|x a] c E; [|discriminate]. simpl in E. subst c. congruence.
Qed.


(** The version captured is never [undefined]. *)
Lemma version_group s m :
  exec versionPattern s = Some m -> m 2 = Some (group m 2).
Proof.
  intros H. apply version_sound in H as (_ & v & _ & _ & _ & H).
  unfold group. now rewrite H.
Qed.

Lemma version_first pre v post :
  indexOf opening (pre ++ delimited v ++ post) = Some (List.length pre) ->
  oneLine v = true ->
  exists m,
    exec versionPattern (pre ++ delimited v ++ post) = Some m /\ m 2 = Some v.
Proof.
  intros Hi Hv. unfold exec.
  apply (search_first versionPattern (fun m => m 2 = Some v)).
  2:{ intros b. now apply version_at. }
  intros a c b m Hpre H.
  rewrite attempt_version in H.
  apply repeatClass_sound in H as (w & rest1 & E & Hw & _ & _ & H).
  apply versionTail_sound in H as (Hop & v' & post' & -> & Hv' & Hm).
  apply app_eq_app in E as (l & [[-> E] | [-> E]]).
  - (* the quantifier stopped inside [c] *)
    destruct l as [|y l].
    + cbn [app] in E. rewrite Hm. f_equal.
      first [ now apply (delimited_unique _ _ _ _ E)
            | symmetry; now apply (delimited_unique _ _ _ _ E) ].
    + exfalso. subst pre.
      pose proof (indexOf_first opening ((a ++ w) ++ y :: l) (delimited v ++ post)) as Hf.
      rewrite <- !app_assoc in Hf. rewrite <- !app_assoc in Hi.
      rewrite !length_app in Hf. rewrite !length_app in Hi.
      specialize (Hf Hi (a ++ w) (y :: l)).
      rewrite <- !app_assoc in Hf.
      rewrite E, Hf in Hop; [discriminate | reflexivity | discriminate].
  - (* the quantifier ran into the delimiter, which starts with a dash *)
    destruct l as [|y l].
    + cbn [app] in E. rewrite Hm. f_equal.
      first [ now apply (delimited_unique _ _ _ _ E)
            | symmetry; now apply (delimited_unique _ _ _ _ E) ].
    + exfalso. rewrite forallb_app in Hw. apply andb_true_iff in Hw as [_ Hw].
      unfold delimited in E. simpl in E. injection E as <- _.
      simpl in Hw. discriminate.
Qed.

(** *** Lines *)





Lemma dashAfterLF_found (a b : jsstring) :
  dashAfterLF (a ++ LF :: js "-" ++ b) = true.
Proof.
  induction a as [|x a IH]; [reflexivity|].
  cbn [app dashAfterLF]. rewrite IH. apply orb_true_r.
Qed.




Lemma split_lines_line (w post : jsstring) :
  forallb (fun x => negb (N.eqb x LF)) w = true ->
  split_lines (w ++ LF :: post) = w :: split_lines post.
Proof.
  induction w as [|x w IH]; cbn [app forallb split_lines]; intros H.
  - now rewrite N.eqb_refl.
  - apply andb_true_iff in H as [Hx Hw]. apply negb_true_iff in Hx.
    rewrite Hx, IH by exact Hw. reflexivity.
Qed.

(** A text without line feed that is followed by one ends a line. *)
Lemma split_lines_In (pre w post : jsstring) :
  forallb (fun x => negb (N.eqb x LF)) w = true ->
  exists pre', In (pre' ++ w) (split_lines (pre ++ w ++ LF :: post)).
Proof.
  intros Hw. induction pre as [|x pre (pre' & IH)].
  - exists []. cbn [app]. rewrite split_lines_line by exact Hw. now left.
  - cbn [app split_lines]. destruct (N.eqb x LF).
    + exists pre'. now right.
    + destruct (split_lines (pre ++ w ++ LF :: post)) as [|l ls];
        [destruct IH|].
      destruct IH as [E | IH].
      * exists (x :: pre'). left. now rewrite E.
      * exists pre'. now right.
Qed.

Lemma dot_noLF (v : jsstring) :
  forallb (accepts Dot) v = true ->
  forallb (fun x => negb (N.eqb x LF)) v = true.
Proof.
  induction v as [|x v IH]; [reflexivity|]. cbn [forallb].
  intros H. apply andb_true_iff in H as [Hx Hv]. rewrite IH by exact Hv.
  rewrite andb_true_r. cbn [accepts] in Hx. unfold lineTerminator in Hx.
  apply negb_true_iff in Hx. apply negb_true_iff.
  apply orb_false_iff in Hx as [Hx _]. apply orb_false_iff in Hx as [Hx _].
  apply orb_false_iff in Hx as [Hx _]. exact Hx.
Qed.

Lemma plainName_noLF (property : jsstring) :
  plainName property = true ->
  forallb (fun x => negb (N.eqb x LF)) (property ++ js ": ") = true.
Proof.
  intros H. rewrite forallb_app. apply andb_true_iff. split; [|reflexivity].
  apply dot_noLF. unfold plainName in H.
  induction property as [|x w IH]; [reflexivity|]. cbn [forallb] in *.
  apply andb_true_iff in H as [Hx Hw]. apply andb_true_iff in Hx as [_ Hx].
  cbn [accepts]. rewrite Hx. cbn [andb]. now apply IH.
Qed.

(** When the single-property pattern matches the output, the line pattern
    matches one of its lines. *)
Lemma single_line (property output : jsstring) m :
  plainName property = true ->
  exec (singlePattern property) output = Some m ->
  exists l, In l (split_lines output)
            /\ exec (linePattern property) l <> None.
Proof.
  intros Hp H. apply single_sound in H as (pre & v & post & -> & Hv & _).
  pose proof (oneLine_run _ Hv) as [Hdot _].
  destruct (split_lines_In pre ((property ++ js ": ") ++ v) post) as (pre' & Hin).
  { rewrite forallb_app, plainName_noLF by exact Hp. now apply dot_noLF. }
  exists (pre' ++ (property ++ js ": ") ++ v). split.
  - rewrite <- !app_assoc in Hin. rewrite <- !app_assoc. exact Hin.
  - rewrite <- (app_nil_r v). now apply line_complete.
Qed.

(** *** Line ends *)

Lemma closedLine_found (a b : jsstring) (x : N) :
  accepts Dot x = true -> closedLine (a ++ x :: LF :: b) = true.
Proof.
  intros Hx. induction a as [|y a IH].
  - cbn [app closedLine startsWith]. rewrite Hx, N.eqb_refl. reflexivity.
  - cbn [app closedLine]. rewrite IH. apply orb_true_r.
Qed.

Lemma oneLine_last (v : jsstring) :
  oneLine v = true -> exists v' x, v = v' ++ [x] /\ accepts Dot x = true.
Proof.
  intros H. apply oneLine_run in H as [Hv Hl].
  destruct (exists_last (l := v)) as (v' & x & ->).
  { destruct v; [simpl in Hl; lia|discriminate]. }
  exists v', x. split; [reflexivity|].
  rewrite forallb_app in Hv. apply andb_true_iff in Hv as [_ Hx].
  simpl in Hx. now rewrite andb_true_r in Hx.
Qed.

Lemma single_closedLine (property output : jsstring) m :
  exec (singlePattern property) output = Some m -> closedLine output = true.
Proof.
  intros E. apply single_sound in E as (pre & v & post & -> & Hv & _).
  destruct (oneLine_last v Hv) as (v' & x & -> & Hx).
  replace (pre ++ (property ++ js ": ") ++ (v' ++ [x]) ++ LF :: post)
    with ((pre ++ (property ++ js ": ") ++ v') ++ x :: LF :: post)
    by (rewrite <- !app_assoc; reflexivity).
  now apply closedLine_found.
Qed.

Lemma closedLine_crlf (w : jsstring) :
  forallb (fun x => negb (N.eqb x LF)) w = true ->
  closedLine (w ++ [CR; LF]) = false.
Proof.
  induction w as [|x w IH]; [reflexivity|]. cbn [forallb app closedLine].
  intros H. apply andb_true_iff in H as [Hx Hw]. rewrite (IH Hw), orb_false_r.
  destruct w as [|y w]; cbn [app startsWith].
  - apply andb_false_r.
  - cbn [forallb] in Hw. apply andb_true_iff in Hw as [Hy _].
    apply negb_true_iff in Hy. rewrite N.eqb_sym, Hy. apply andb_false_r.
Qed.

Lemma indexOf_here (p s : jsstring) : indexOf p (p ++ s) = Some 0.
Proof.
  pose proof (startsWith_app p s) as H.
  destruct (p ++ s); simpl; now rewrite H.
Qed.

Lemma closedLine_noLF (w : jsstring) :
  forallb (fun x => negb (N.eqb x LF)) w = true -> closedLine w = false.
Proof.
  induction w as [|x w IH]; [reflexivity|]. cbn [forallb closedLine].
  intros H. apply andb_true_iff in H as [_ Hw]. rewrite (IH Hw), orb_false_r.
  destruct w as [|y w]; cbn [startsWith]; [apply andb_false_r|].
  cbn [forallb] in Hw. apply andb_true_iff in Hw as [Hy _].
  apply negb_true_iff in Hy. rewrite N.eqb_sym, Hy. apply andb_false_r.
Qed.

Lemma split_lines_noLF (w : jsstring) :
  forallb (fun x => negb (N.eqb x LF)) w = true -> split_lines w = [w].
Proof.
  induction w as [|x w IH]; [reflexivity|]. cbn [forallb split_lines].
  intros H. apply andb_true_iff in H as [Hx Hw]. apply negb_true_iff in Hx.
  now rewrite Hx, (IH Hw).
Qed.

(** Without a character other than a line terminator directly before a
    line feed the single-property pattern does not match. *)
Lemma single_unclosed (property output : jsstring) :
  closedLine output = false -> exec (singlePattern property) output = None.
Proof.
  intros Hc. destruct (exec (singlePattern property) output) as [m|] eqn:E;
    [|reflexivity].
  apply single_closedLine in E. congruence.
Qed.

Lemma label_value_noLF (property value : jsstring) :
  plainName property = true -> oneLine value = true ->
  forallb (fun x => negb (N.eqb x LF)) ((property ++ js ": ") ++ value) = true.
Proof.
  intros Hp Hv. rewrite forallb_app, plainName_noLF by exact Hp.
  apply dot_noLF. now apply oneLine_run in Hv as [Hv _].
Qed.

(** ** Running the functions *)

Section Running.

Variable h : Host.

Lemma run_bind {A B} (a : action A) (f : A -> action B) :
  forall t,
    run h (bind a f) t =
    match run h a t with
    | (Resolved x, t') => run h (f x) t'
    | (Rejected e, t') => (Rejected e, t')
    end.
Proof.
  induction a as [x|e|c args o k IH|k IH|k IH|c k IH]; intros t; simpl; auto.
Qed.

Lemma run_fetchGradleVersion u p t :
  run h (fetchGradleVersion u p) t =
  let r := versionOutput h t u p in
  let t1 := t ++ [versionExec h u p] in
  if negb (Z.eqb (exitCode r) 0) then
    (Rejected {| message := js "Failed to execute '" ++ retrieveGradleCLI u
                            ++ js " --version'" |},
     (t1 ++ [Logged (error (stderr r))])
        ++ [Logged (setFailed (js "'" ++ retrieveGradleCLI u
                               ++ js " --version' command failed!"))])
  else
    match exec versionPattern (stdout r) with
    | Some m => (Resolved (group m 2), t1)
    | None =>
        (Rejected {| message := js "Failed to extract gradle version" |},
         if debugging h
         then t1 ++ [Logged (debug (js "Failed to extract gradle version from: "
                                    ++ stdout r))]
         else t1)
    end.
Proof.
  unfold fetchGradleVersion, versionOutput, versionExec. cbn [bind isDebug run getExecOutput].
  cbv zeta.
  destruct (negb (exitCode _ =? 0)%Z); [reflexivity|].
  destruct (exec versionPattern _); [reflexivity|].
  cbn [bind isDebug run]. destruct (debugging h); reflexivity.
Qed.

Lemma run_singlePropertySupportOf v t :
  fst (run h (singlePropertySupportOf v) t) =
  match Semver.coerce v with
  | Some sv => Resolved (Semver.gte sv threshold)
  | None => Rejected {| message := js "Failed to parse gradle version: " ++ v |}
  end.
Proof.
  unfold singlePropertySupportOf, Semver.satisfies_gte.
  destruct (Semver.coerce v) as [sv|]; [|reflexivity].
  destruct (Semver.gte sv threshold); reflexivity.
Qed.

Lemma invocations_app (t t' : list event) : invocations (t ++ t') = invocations t ++ invocations t'.
Proof. apply filter_app. Qed.

Lemma invocations_singlePropertySupportOf v t :
  invocations (snd (run h (singlePropertySupportOf v) t)) = invocations t.
Proof.
  unfold singlePropertySupportOf, Semver.satisfies_gte.
  destruct (Semver.coerce v) as [sv|]; [|reflexivity].
  destruct (Semver.gte sv threshold); [reflexivity|].
  simpl. rewrite invocations_app. simpl. apply app_nil_r.
Qed.

Lemma run_singlePropertySupport u p t :
  run h (singlePropertySupport u p) t =
  match run h (fetchGradleVersion u p) t with
  | (Resolved v, t') => run h (singlePropertySupportOf v) t'
  | (Rejected e, t') => (Rejected e, t')
  end.
Proof. unfold singlePropertySupport. apply run_bind. Qed.

Lemma run_retrieveGradleProperty u p module property t :
  run h (retrieveGradleProperty u p module property) t =
  match run h (singlePropertySupport u p) t with
  | (Rejected e, t') => (Rejected e, t')
  | (Resolved supported, t1) =>
      let r := propertyOutput h t1 u p module property supported in
      let t2 := t1 ++ [propertyExec h u p module property supported] in
      if negb (Z.eqb (exitCode r) 0) then
        (Rejected {| message :=
           js "Failed to execute '" ++ retrieveGradleCLI u ++ js " "
           ++ verifyModule module ++ js ":properties'" |},
         (t2 ++ [Logged (error (stderr r))])
           ++ [Logged (setFailed
                 (js "'" ++ retrieveGradleCLI u ++ js " " ++ verifyModule module
                  ++ js ":properties' retrieval failed!"))])
      else
        match matchProperty supported property (stdout r) with
        | Some (Some matched) => (Resolved (matched 2), t2)
        | _ =>
            (Resolved None,
             t2 ++ [Logged (warning
                      (js "Failed to retrieve the '" ++ property ++ js "' for '"
                       ++ module ++ js "'"))])
        end
  end.
Proof.
  unfold retrieveGradleProperty. rewrite run_bind.
  destruct (run h (singlePropertySupport u p) t) as [[supported|e] t1];
    [|reflexivity].
  unfold propertyOutput, propertyExec.
  cbn [bind isDebug run getExecOutput]. cbv zeta.
  destruct (negb (exitCode _ =? 0)%Z); [reflexivity|].
  destruct (matchProperty supported property _) as [[m|]|]; reflexivity.
Qed.

(** The outcome of the dependency listing. *)
Lemma outcome_retrieveGradleDependencies u p module configuration t :
  fst (run h (retrieveGradleDependencies u p module configuration) t) =
  let r := execOutput h t (retrieveGradleCLI u)
             (dependenciesArgs (verifyModule module) configuration)
             (execOptions p (debugging h)) in
  if negb (Z.eqb (exitCode r) 0) then
    Rejected {| message :=
      js "Failed to execute '" ++ retrieveGradleCLI u ++ js " "
      ++ verifyModule module ++ js ":dependencies"
      ++ match configuration with
         | Some ((_ :: _) as c) => js " --configuration " ++ c ++ js "'"
         | _ => js "'"
         end |}
  else Resolved (stdout r).
Proof.
  unfold retrieveGradleDependencies, dependenciesArgs.
  destruct configuration as [[|x c]|];
    cbn [bind dateNow isDebug run getExecOutput app]; cbv zeta;
    destruct (negb (exitCode _ =? 0)%Z); reflexivity.
Qed.

(** The trace of the dependency listing holds one invocation. *)
Lemma invocations_retrieveGradleDependencies u p module configuration t :
  invocations (snd (run h (retrieveGradleDependencies u p module configuration) t)) =
  invocations t
  ++ [Exec (retrieveGradleCLI u)
        (dependenciesArgs (verifyModule module) configuration)
        (execOptions p (debugging h))].
Proof.
  unfold retrieveGradleDependencies, dependenciesArgs.
  destruct configuration as [[|x c]|];
    cbn [bind dateNow isDebug run getExecOutput app]; cbv zeta;
    destruct (negb (exitCode _ =? 0)%Z);
    cbn [bind core run snd]; rewrite ?invocations_app; cbn [invocations filter isExec];
    rewrite ?app_nil_r; reflexivity.
Qed.

Lemma outcome_retrieveGradleBuildEnvironment u p t :
  fst (run h (retrieveGradleBuildEnvironment u p) t) =
  let r := execOutput h t (retrieveGradleCLI u)
             [js "--console"; js "plain"; js ":buildEnvironment"]
             (execOptions p (debugging h)) in
  if negb (Z.eqb (exitCode r) 0) then
    Rejected {| message :=
      js "Failed to execute '" ++ retrieveGradleCLI u ++ js " :buildEnvironment'" |}
  else Resolved (stdout r).
Proof.
  unfold retrieveGradleBuildEnvironment.
  cbn [bind dateNow isDebug run getExecOutput]; cbv zeta.
  destruct (negb (exitCode _ =? 0)%Z); reflexivity.
Qed.

Lemma invocations_retrieveGradleBuildEnvironment u p t :
  invocations (snd (run h (retrieveGradleBuildEnvironment u p) t)) =
  invocations t
  ++ [Exec (retrieveGradleCLI u)
        [js "--console"; js "plain"; js ":buildEnvironment"]
        (execOptions p (debugging h))].
Proof.
  unfold retrieveGradleBuildEnvironment.
  cbn [bind dateNow isDebug run getExecOutput]; cbv zeta.
  destruct (negb (exitCode _ =? 0)%Z);
    cbn [bind core run snd]; rewrite ?invocations_app; cbn [invocations filter isExec];
    rewrite ?app_nil_r; reflexivity.
Qed.

Lemma invocations_fetchGradleVersion u p t :
  invocations (snd (run h (fetchGradleVersion u p) t)) =
  invocations t ++ [versionExec h u p].
Proof.
  rewrite run_fetchGradleVersion. cbv zeta.
  destruct (negb (exitCode _ =? 0)%Z).
  - cbn [snd]. rewrite !invocations_app. cbn [invocations filter isExec versionExec].
    now rewrite !app_nil_r.
  - destruct (exec versionPattern _); cbn [snd].
    + rewrite invocations_app. reflexivity.
    + destruct (debugging h); rewrite !invocations_app; cbn [invocations filter isExec versionExec];
        rewrite ?app_nil_r; reflexivity.
Qed.

Lemma invocations_singlePropertySupport u p t :
  invocations (snd (run h (singlePropertySupport u p) t)) =
  invocations t ++ [versionExec h u p].
Proof.
  rewrite run_singlePropertySupport.
  pose proof (invocations_fetchGradleVersion u p t) as H.
  destruct (run h (fetchGradleVersion u p) t) as [[v|e] t']; cbn [snd] in *.
  - now rewrite invocations_singlePropertySupportOf.
  - exact H.
Qed.

Lemma invocations_retrieveGradleProperty u p module property t :
  invocations (snd (run h (retrieveGradleProperty u p module property) t)) =
  invocations t ++ versionExec h u p
  :: match fst (run h (singlePropertySupport u p) t) with
     | Resolved supported => [propertyExec h u p module property supported]
     | Rejected _ => []
     end.
Proof.
  rewrite run_retrieveGradleProperty.
  pose proof (invocations_singlePropertySupport u p t) as H.
  destruct (run h (singlePropertySupport u p) t) as [[supported|e] t1];
    cbn [fst snd] in *; [|exact H].
  assert (E : invocations (t1 ++ [propertyExec h u p module property supported])
              = invocations t ++ [versionExec h u p; propertyExec h u p module property supported]).
  { rewrite invocations_app, H, <- app_assoc. reflexivity. }
  cbv zeta. destruct (negb (exitCode _ =? 0)%Z); cbn [snd].
  - rewrite !invocations_app in *. cbn [invocations filter isExec] in *.
    rewrite !app_nil_r. exact E.
  - destruct (matchProperty supported property _) as [[m|]|]; cbn [snd];
      rewrite ?(invocations_app (t1 ++ _)); cbn [invocations filter isExec] in *;
      rewrite ?app_nil_r; exact E.
Qed.

End Running.

(** ** The capability gate *)

Lemma gte_threshold (v : Semver.SemVer) :
  Semver.gte v threshold = true <->
  (7 < Semver.major v \/ (Semver.major v = 7 /\ 5 <= Semver.minor v))%N.
Proof.
  unfold Semver.gte, Semver.compare, threshold. cbn [Semver.major Semver.minor Semver.patch].
  destruct (N.compare_spec (Semver.major v) 7) as [E|L|G].
  - destruct (N.compare_spec (Semver.minor v) 5) as [E5|L5|G5].
    + destruct (N.compare_spec (Semver.patch v) 0) as [E0|L0|G0]; split; intros;
        try lia; try reflexivity.
    + split; intros; [discriminate|lia].
    + split; intros; [lia|reflexivity].
  - split; intros; [discriminate|lia].
  - split; intros; [lia|reflexivity].
Qed.

Lemma ParseError_parse (version : jsstring) :
  ParseError {| message := js "Failed to parse gradle version: " ++ version |} = true.
Proof.
  unfold ParseError. cbn [message]. rewrite startsWith_app. apply orb_true_r.
Qed.

(** C1.  The capability gate fails with a parse error exactly when the
    version string cannot be coerced to a semantic version, and otherwise
    returns whether the coerced version is at least 7.5.0 in the order on
    major, minor and patch; a version below the threshold is a normal
    [false].  So ["7.4.2"] gives [false], ["7.5.0"], ["8.0"] and
    ["7.5.0-rc-1"] give [true], and the empty string and
    ["not-a-version"] fail. *)
Theorem singlePropertySupport_threshold :
  (forall h t version,
     match Semver.coerce version with
     | None =>
         exists e, fst (run h (singlePropertySupportOf version) t) = Rejected e
                   /\ ParseError e = true
     | Some semverVersion =>
         fst (run h (singlePropertySupportOf version) t)
         = Resolved (Semver.gte semverVersion threshold)
         /\ (Semver.gte semverVersion threshold = true <->
             (7 < Semver.major semverVersion
              \/ (Semver.major semverVersion = 7 /\ 5 <= Semver.minor semverVersion))%N)
     end)
  /\ (forall h t u p,
        fst (run h (singlePropertySupport u p) t) =
        match fst (run h (fetchGradleVersion u p) t) with
        | Resolved version => fst (run h (singlePropertySupportOf version) t)
        | Rejected e => Rejected e
        end)
  /\ (forall h t,
        fst (run h (singlePropertySupportOf (js "7.4.2")) t) = Resolved false
        /\ fst (run h (singlePropertySupportOf (js "7.5.0")) t) = Resolved true
        /\ fst (run h (singlePropertySupportOf (js "8.0")) t) = Resolved true
        /\ fst (run h (singlePropertySupportOf (js "7.5.0-rc-1")) t) = Resolved true
        /\ fst (run h (singlePropertySupportOf (js "")) t)
           = Rejected {| message := js "Failed to parse gradle version: " |}
        /\ fst (run h (singlePropertySupportOf (js "not-a-version")) t)
           = Rejected {| message := js "Failed to parse gradle version: not-a-version" |})
  /\ Semver.coerce (js "7.5.0-rc-1")
     = Some {| Semver.major := 7; Semver.minor := 5; Semver.patch := 0 |}.
Proof.
  split; [|split; [|split]].
  - intros h t version. rewrite run_singlePropertySupportOf.
    destruct (Semver.coerce version) as [sv|].
    + split; [reflexivity|apply gte_threshold].
    + eexists. split; [reflexivity|apply ParseError_parse].
  - intros h t u p. rewrite run_singlePropertySupport.
    destruct (run h (fetchGradleVersion u p) t) as [[v|e] t']; cbn [fst];
      [|reflexivity].
    now rewrite !run_singlePropertySupportOf.
  - intros h t. rewrite !run_singlePropertySupportOf.
    repeat split; vm_compute; reflexivity.
  - vm_compute. reflexivity.
Qed.

(** ** The version probe *)

Lemma outcome_fetchGradleVersion h t u p output :
  printsVersion h t u p output ->
  fst (run h (fetchGradleVersion u p) t) =
  match exec versionPattern output with
  | Some m => Resolved (group m 2)
  | None => Rejected {| message := js "Failed to extract gradle version" |}
  end.
Proof.
  intros [Hcode Hout]. rewrite run_fetchGradleVersion. cbv zeta.
  unfold versionOutput. rewrite Hcode, Hout. cbn [Z.eqb negb].
  destruct (exec versionPattern output); reflexivity.
Qed.







Lemma documentedBanner_banner :
  documentedBanner (banner (js "7.6")) = true.
Proof. reflexivity. Qed.

(** ** Property retrieval *)

(** On a scripted host the probe and the [properties] invocation are
    evaluated. *)
Ltac scripted_answers :=
  eexists; split; [reflexivity|]; split; reflexivity.

Lemma outcome_retrieveGradleProperty h t u p module property supported output :
  answersProperties h t u p module property supported output ->
  fst (run h (retrieveGradleProperty u p module property) t) =
  Resolved match matchProperty supported property output with
           | Some (Some matched) => matched 2
           | _ => None
           end.
Proof.
  intros (t1 & Hprobe & Hcode & Hout).
  rewrite run_retrieveGradleProperty, Hprobe. cbv zeta.
  rewrite Hcode, Hout. cbn [Z.eqb negb].
  destruct (matchProperty supported property output) as [[m|]|]; reflexivity.
Qed.

(** Single-property mode on lines closed by a line feed.  The output is
    searched for the property name followed by a colon and a space; where
    that first appears, a non-empty text without line terminator that a
    line feed follows directly is returned.  Whatever is returned is such a
    text, and something is returned whenever the output holds one.  For the
    output [buildFile: /a/b/c.gradle\n] and the property [buildFile] the
    result is ["/a/b/c.gradle"]. *)
Theorem retrieveGradleProperty_single h t u p module property output :
  plainName property = true ->
  answersProperties h t u p module property true output ->
  (forall pre value post,
     output = pre ++ (property ++ js ": ") ++ value ++ LF :: post ->
     indexOf (property ++ js ": ") output = Some (List.length pre) ->
     oneLine value = true ->
     fst (run h (retrieveGradleProperty u p module property) t)
     = Resolved (Some value))
  /\ (forall value,
        fst (run h (retrieveGradleProperty u p module property) t)
        = Resolved (Some value) ->
        exists pre post,
          output = pre ++ (property ++ js ": ") ++ value ++ LF :: post
          /\ oneLine value = true)
  /\ ((exists pre value post,
         output = pre ++ (property ++ js ": ") ++ value ++ LF :: post
         /\ oneLine value = true) ->
      exists value,
        fst (run h (retrieveGradleProperty u p module property) t)
        = Resolved (Some value))
  /\ (property = js "buildFile" ->
      output = js "buildFile: /a/b/c.gradle" ++ [LF] ->
      fst (run h (retrieveGradleProperty u p module property) t)
      = Resolved (Some (js "/a/b/c.gradle"))).
Proof.
  intros _ Hh. rewrite (outcome_retrieveGradleProperty _ _ _ _ _ _ _ _ Hh).
  cbn [matchProperty]. repeat split.
  - intros pre value post -> Hi Hv.
    destruct (single_first property pre value post Hi Hv) as (m & -> & Hm).
    now rewrite Hm.
  - intros value H.
    destruct (exec (singlePattern property) output) as [m|] eqn:E;
      [|discriminate].
    injection H as H.
    apply single_sound in E as (pre & v & post & -> & Hv & Hm).
    rewrite Hm in H. injection H as <-. eauto.
  - intros (pre & v & post & -> & Hv).
    pose proof (single_complete property pre v post Hv) as H.
    destruct (exec (singlePattern property) _) as [m|] eqn:E; [|congruence].
    apply single_sound in E as (_ & v' & _ & _ & _ & Hm).
    rewrite Hm. eauto.
  - intros -> ->. reflexivity.
Qed.

(** An instance: gradle 7.6 printing the build file of the root module. *)
Lemma retrieveGradleProperty_single_witness :
  plainName (js "buildFile") = true
  /\ answersProperties
       (scripted (succeeded (banner (js "7.6")))
                 (succeeded (js "buildFile: /a/b/c.gradle" ++ [LF])))
       [] true (js ".") (js ":") (js "buildFile") true
       (js "buildFile: /a/b/c.gradle" ++ [LF])
  /\ fst (run (scripted (succeeded (banner (js "7.6")))
                        (succeeded (js "buildFile: /a/b/c.gradle" ++ [LF])))
              (retrieveGradleProperty true (js ".") (js ":") (js "buildFile")) [])
     = Resolved (Some (js "/a/b/c.gradle")).
Proof.
  assert (H : answersProperties
       (scripted (succeeded (banner (js "7.6")))
                 (succeeded (js "buildFile: /a/b/c.gradle" ++ [LF])))
       [] true (js ".") (js ":") (js "buildFile") true
       (js "buildFile: /a/b/c.gradle" ++ [LF])).
  { scripted_answers. }
  split; [reflexivity|]. split; [exact H|].
  apply (proj1 (retrieveGradleProperty_single _ _ _ _ _ (js "buildFile") _ eq_refl H)
           [] (js "/a/b/c.gradle") []); reflexivity.
Defined.

Lemma matchProperty_lines property output before line after m :
  split_lines output = before ++ line :: after ->
  Forall (fun l => lineMatches property l = false) before ->
  exec (linePattern property) line = Some m ->
  matchProperty false property output = Some (Some m).
Proof.
  intros Hs Hb Hm. cbn [matchProperty]. rewrite Hs. clear Hs.
  induction Hb as [|l before Hl Hb IH]; cbn [app map find].
  - now rewrite Hm.
  - unfold lineMatches in Hl.
    destruct (exec (linePattern property) l); [discriminate|]. exact IH.
Qed.

Lemma lineMatches_absent property l :
  indexOf (property ++ js ": ") l = None -> lineMatches property l = false.
Proof. intros H. unfold lineMatches. now rewrite line_absent. Qed.

(** C4.  In full-listing mode the output is split into lines, each line is
    searched on its own for the property name followed by a colon and a
    space, and the value of the first line that matches is returned, wherever
    that line stands.  With a line [name: root] and no earlier line holding
    [name: ], the property [name] is ["root"], whatever the other lines
    are, and of two lines for the same property the first one counts. *)
Theorem retrieveGradleProperty_listing h t u p module property output :
  plainName property = true ->
  answersProperties h t u p module property false output ->
  (forall before pre value post after,
     split_lines output
     = before ++ (pre ++ (property ++ js ": ") ++ value ++ post) :: after ->
     Forall (fun l => lineMatches property l = false) before ->
     indexOf (property ++ js ": ") (pre ++ (property ++ js ": ") ++ value ++ post)
     = Some (List.length pre) ->
     oneLine value = true ->
     match post with [] => True | x :: _ => lineTerminator x = true end ->
     fst (run h (retrieveGradleProperty u p module property) t)
     = Resolved (Some value))
  /\ (forall before after,
        property = js "name" ->
        split_lines output = before ++ js "name: root" :: after ->
        Forall (fun l => indexOf (js "name: ") l = None) before ->
        fst (run h (retrieveGradleProperty u p module property) t)
        = Resolved (Some (js "root")))
  /\ (property = js "name" ->
      output = unlines [js "name: root"; js "buildFile: x.gradle"] ->
      fst (run h (retrieveGradleProperty u p module property) t)
      = Resolved (Some (js "root")))
  /\ (property = js "name" ->
      output = unlines [js "group: g"; js "buildFile: x.gradle"; js "name: root";
                        js "version: 1"] ->
      fst (run h (retrieveGradleProperty u p module property) t)
      = Resolved (Some (js "root")))
  /\ (property = js "name" ->
      output = unlines [js "name: first"; js "name: second"] ->
      fst (run h (retrieveGradleProperty u p module property) t)
      = Resolved (Some (js "first"))).
Proof.
  intros _ Hh. rewrite (outcome_retrieveGradleProperty _ _ _ _ _ _ _ _ Hh).
  assert (General : forall before pre value post after,
     split_lines output
     = before ++ (pre ++ (property ++ js ": ") ++ value ++ post) :: after ->
     Forall (fun l => lineMatches property l = false) before ->
     indexOf (property ++ js ": ") (pre ++ (property ++ js ": ") ++ value ++ post)
     = Some (List.length pre) ->
     oneLine value = true ->
     match post with [] => True | x :: _ => lineTerminator x = true end ->
     Resolved match matchProperty false property output with
              | Some (Some matched) => matched 2
              | _ => None
              end = Resolved (Some value)).
  { intros before pre value post after Hs Hb Hi Hv Hpost.
    destruct (line_first property pre value post Hi Hv Hpost) as (m & Hm & H2).
    rewrite (matchProperty_lines _ _ _ _ _ _ Hs Hb Hm). now rewrite H2. }
  split; [exact General|]. split; [|repeat split; intros -> ->; reflexivity].
  intros before after -> Hs Hb.
  apply (General before [] (js "root") [] after); auto.
  eapply Forall_impl; [|exact Hb].
  intros l Hl. apply lineMatches_absent. exact Hl.
Qed.

(** C4, witness: gradle 7.4 listing the name after the build file. *)
Lemma retrieveGradleProperty_listing_witness :
  plainName (js "name") = true
  /\ answersProperties
       (scripted (succeeded (banner (js "7.4")))
                 (succeeded (unlines [js "buildFile: x.gradle"; js "name: root"])))
       [] true (js ".") (js ":") (js "name") false
       (unlines [js "buildFile: x.gradle"; js "name: root"])
  /\ fst (run (scripted (succeeded (banner (js "7.4")))
                 (succeeded (unlines [js "buildFile: x.gradle"; js "name: root"])))
              (retrieveGradleProperty true (js ".") (js ":") (js "name")) [])
     = Resolved (Some (js "root")).
Proof.
  assert (H : answersProperties
       (scripted (succeeded (banner (js "7.4")))
                 (succeeded (unlines [js "buildFile: x.gradle"; js "name: root"])))
       [] true (js ".") (js ":") (js "name") false
       (unlines [js "buildFile: x.gradle"; js "name: root"])).
  { scripted_answers. }
  split; [reflexivity|]. split; [exact H|].
  apply (proj1 (retrieveGradleProperty_listing _ _ _ _ _ (js "name") _ eq_refl H)
           [js "buildFile: x.gradle"] [] (js "root") [] [[]]).
  - reflexivity.
  - repeat constructor.
  - reflexivity.
  - reflexivity.
  - exact I.
Defined.

(** ** Line ends in single-property mode *)

Lemma listing_crlf property value :
  plainName property = true -> oneLine value = true ->
  exists m,
    matchProperty false property ((property ++ js ": ") ++ value ++ [CR; LF])
    = Some (Some m)
    /\ m 2 = Some value.
Proof.
  intros Hp Hv.
  destruct (line_first property [] value [CR]) as (m & Hm & H2); auto.
  { exact (indexOf_here (property ++ js ": ") (value ++ [CR])). }
  exists m. split; [|exact H2].
  apply (matchProperty_lines property _ []
           ((property ++ js ": ") ++ value ++ [CR]) [[]] m);
    [|constructor|exact Hm].
  replace ((property ++ js ": ") ++ value ++ [CR; LF])
    with (((property ++ js ": ") ++ value ++ [CR]) ++ LF :: [])
    by (rewrite <- !app_assoc; reflexivity).
  rewrite split_lines_line; [reflexivity|].
  rewrite app_assoc, forallb_app, label_value_noLF by assumption. reflexivity.
Qed.

Lemma listing_unclosed property value :
  plainName property = true -> oneLine value = true ->
  exists m,
    matchProperty false property ((property ++ js ": ") ++ value)
    = Some (Some m)
    /\ m 2 = Some value.
Proof.
  intros Hp Hv.
  destruct (line_first property [] value []) as (m & Hm & H2); auto.
  { exact (indexOf_here (property ++ js ": ") (value ++ [])). }
  cbn [app] in Hm. rewrite app_nil_r in Hm.
  exists m. split; [|exact H2].
  apply (matchProperty_lines property _ [] ((property ++ js ": ") ++ value) [] m);
    [|constructor|exact Hm].
  now rewrite split_lines_noLF by now apply label_value_noLF.
Qed.

(** C3, where the code departs from it.  When the line of the property
    ends in a carriage return and a line feed, or is the last of the
    output and has no line feed, single-property mode does not return the
    text after the label up to the end of the line: it returns
    [undefined].  Full-listing mode returns that text from the same
    output. *)
Theorem retrieveGradleProperty_single_line_end
    h t u p module h' t' u' p' module' property value output :
  plainName property = true ->
  oneLine value = true ->
  output = (property ++ js ": ") ++ value ++ [CR; LF]
  \/ output = (property ++ js ": ") ++ value ->
  answersProperties h t u p module property true output ->
  answersProperties h' t' u' p' module' property false output ->
  fst (run h (retrieveGradleProperty u p module property) t) = Resolved None
  /\ fst (run h' (retrieveGradleProperty u' p' module' property) t')
     = Resolved (Some value).
Proof.
  intros Hp Hv Ho Hs Hl.
  rewrite (outcome_retrieveGradleProperty _ _ _ _ _ _ _ _ Hs).
  rewrite (outcome_retrieveGradleProperty _ _ _ _ _ _ _ _ Hl).
  destruct Ho as [-> | ->].
  - destruct (listing_crlf property value Hp Hv) as (m & -> & ->).
    split; [|reflexivity]. cbn [matchProperty].
    rewrite single_unclosed; [reflexivity|].
    rewrite app_assoc. apply closedLine_crlf. now apply label_value_noLF.
  - destruct (listing_unclosed property value Hp Hv) as (m & -> & ->).
    split; [|reflexivity]. cbn [matchProperty].
    rewrite single_unclosed; [reflexivity|].
    apply closedLine_noLF. now apply label_value_noLF.
Qed.

(** C3, witness: the build file printed with CR LF, on gradle 7.6 and on
    gradle 7.4. *)
Lemma retrieveGradleProperty_single_line_end_witness :
  plainName (js "buildFile") = true
  /\ oneLine (js "/a/b/c.gradle") = true
  /\ answersProperties
       (scripted (succeeded (banner (js "7.6")))
          (succeeded ((js "buildFile" ++ js ": ") ++ js "/a/b/c.gradle" ++ [CR; LF])))
       [] false (js ".") (js ":") (js "buildFile") true
       ((js "buildFile" ++ js ": ") ++ js "/a/b/c.gradle" ++ [CR; LF])
  /\ answersProperties
       (scripted (succeeded (banner (js "7.4")))
          (succeeded ((js "buildFile" ++ js ": ") ++ js "/a/b/c.gradle" ++ [CR; LF])))
       [] false (js ".") (js ":") (js "buildFile") false
       ((js "buildFile" ++ js ": ") ++ js "/a/b/c.gradle" ++ [CR; LF])
  /\ fst (run (scripted (succeeded (banner (js "7.6")))
                 (succeeded ((js "buildFile" ++ js ": ") ++ js "/a/b/c.gradle"
                             ++ [CR; LF])))
            (retrieveGradleProperty false (js ".") (js ":") (js "buildFile")) [])
     = Resolved None
  /\ fst (run (scripted (succeeded (banner (js "7.4")))
                 (succeeded ((js "buildFile" ++ js ": ") ++ js "/a/b/c.gradle"
                             ++ [CR; LF])))
            (retrieveGradleProperty false (js ".") (js ":") (js "buildFile")) [])
     = Resolved (Some (js "/a/b/c.gradle")).
Proof.
  assert (H1 : answersProperties
       (scripted (succeeded (banner (js "7.6")))
          (succeeded ((js "buildFile" ++ js ": ") ++ js "/a/b/c.gradle" ++ [CR; LF])))
       [] false (js ".") (js ":") (js "buildFile") true
       ((js "buildFile" ++ js ": ") ++ js "/a/b/c.gradle" ++ [CR; LF])).
  { scripted_answers. }
  assert (H2 : answersProperties
       (scripted (succeeded (banner (js "7.4")))
          (succeeded ((js "buildFile" ++ js ": ") ++ js "/a/b/c.gradle" ++ [CR; LF])))
       [] false (js ".") (js ":") (js "buildFile") false
       ((js "buildFile" ++ js ": ") ++ js "/a/b/c.gradle" ++ [CR; LF])).
  { scripted_answers. }
  split; [reflexivity|]. split; [reflexivity|].
  split; [exact H1|]. split; [exact H2|].
  exact (retrieveGradleProperty_single_line_end _ _ _ _ _ _ _ _ _ _
           (js "buildFile") (js "/a/b/c.gradle") _
           eq_refl eq_refl (or_introl eq_refl) H1 H2).
Defined.

(** ** Failing invocations *)

Lemma ExecutionError_execute (rest : jsstring) :
  ExecutionError {| message := js "Failed to execute '" ++ rest |} = true.
Proof. unfold ExecutionError. cbn [message]. apply startsWith_app. Qed.

(** C5.  When the process an operation has invoked exits with a non-zero
    code, the operation fails with an execution error instead of a result,
    and the failing invocation is the last one it makes: it is not retried.
    This holds for the capability probe, the dependency listing, the
    build-environment dump and both invocations of the property retrieval. *)
Theorem nonzero_exit_rejects h t u p module configuration property :
  (exitCode (versionOutput h t u p) <> 0%Z ->
   exists e,
     fst (run h (singlePropertySupport u p) t) = Rejected e
     /\ ExecutionError e = true
     /\ invocations (snd (run h (singlePropertySupport u p) t))
        = invocations t ++ [versionExec h u p])
  /\ (exitCode (execOutput h t (retrieveGradleCLI u)
                  (dependenciesArgs (verifyModule module) configuration)
                  (execOptions p (debugging h))) <> 0%Z ->
      exists e,
        fst (run h (retrieveGradleDependencies u p module configuration) t)
        = Rejected e
        /\ ExecutionError e = true
        /\ invocations
             (snd (run h (retrieveGradleDependencies u p module configuration) t))
           = invocations t
             ++ [Exec (retrieveGradleCLI u)
                   (dependenciesArgs (verifyModule module) configuration)
                   (execOptions p (debugging h))])
  /\ (exitCode (execOutput h t (retrieveGradleCLI u)
                  [js "--console"; js "plain"; js ":buildEnvironment"]
                  (execOptions p (debugging h))) <> 0%Z ->
      exists e,
        fst (run h (retrieveGradleBuildEnvironment u p) t) = Rejected e
        /\ ExecutionError e = true
        /\ invocations (snd (run h (retrieveGradleBuildEnvironment u p) t))
           = invocations t
             ++ [Exec (retrieveGradleCLI u)
                   [js "--console"; js "plain"; js ":buildEnvironment"]
                   (execOptions p (debugging h))])
  /\ (exitCode (versionOutput h t u p) <> 0%Z ->
      exists e,
        fst (run h (retrieveGradleProperty u p module property) t) = Rejected e
        /\ ExecutionError e = true
        /\ invocations (snd (run h (retrieveGradleProperty u p module property) t))
           = invocations t ++ [versionExec h u p])
  /\ (forall supported t1,
        run h (singlePropertySupport u p) t = (Resolved supported, t1) ->
        exitCode (propertyOutput h t1 u p module property supported) <> 0%Z ->
        exists e,
          fst (run h (retrieveGradleProperty u p module property) t) = Rejected e
          /\ ExecutionError e = true
          /\ invocations (snd (run h (retrieveGradleProperty u p module property) t))
             = invocations t
               ++ [versionExec h u p; propertyExec h u p module property supported]).
Proof.
  assert (Probe : exitCode (versionOutput h t u p) <> 0%Z ->
    run h (singlePropertySupport u p) t
    = (Rejected {| message := js "Failed to execute '" ++ retrieveGradleCLI u
                              ++ js " --version'" |},
       snd (run h (singlePropertySupport u p) t))).
  { intros Hc. rewrite run_singlePropertySupport, run_fetchGradleVersion.
    cbv zeta. apply Z.eqb_neq in Hc. rewrite Hc. reflexivity. }
  split; [|split; [|split; [|split]]].
  - intros Hc. eexists. rewrite (Probe Hc). cbn [fst].
    split; [reflexivity|]. split; [apply ExecutionError_execute|].
    apply invocations_singlePropertySupport.
  - intros Hc. eexists. rewrite outcome_retrieveGradleDependencies. cbv zeta.
    apply Z.eqb_neq in Hc. rewrite Hc. cbn [negb].
    split; [reflexivity|]. split; [apply ExecutionError_execute|].
    apply invocations_retrieveGradleDependencies.
  - intros Hc. eexists. rewrite outcome_retrieveGradleBuildEnvironment. cbv zeta.
    apply Z.eqb_neq in Hc. rewrite Hc. cbn [negb].
    split; [reflexivity|]. split; [apply ExecutionError_execute|].
    apply invocations_retrieveGradleBuildEnvironment.
  - intros Hc. eexists.
    rewrite invocations_retrieveGradleProperty, run_retrieveGradleProperty.
    rewrite (Probe Hc). cbn [fst].
    split; [reflexivity|]. split; [apply ExecutionError_execute|reflexivity].
  - intros supported t1 Hprobe Hc. eexists.
    rewrite invocations_retrieveGradleProperty, run_retrieveGradleProperty.
    rewrite Hprobe. cbv zeta. apply Z.eqb_neq in Hc. rewrite Hc. cbn [negb fst].
    split; [reflexivity|]. split; [apply ExecutionError_execute|reflexivity].
Qed.

(** C5, witness: a gradle that exits with code 1 on every invocation. *)
Lemma nonzero_exit_rejects_witness :
  exitCode (versionOutput (scripted (failed 1 (js "boom")) (failed 1 (js "boom")))
              [] false (js ".")) <> 0%Z
  /\ exists e,
       fst (run (scripted (failed 1 (js "boom")) (failed 1 (js "boom")))
              (retrieveGradleProperty false (js ".") (js ":") (js "name")) [])
       = Rejected e
       /\ ExecutionError e = true
       /\ invocations
            (snd (run (scripted (failed 1 (js "boom")) (failed 1 (js "boom")))
                    (retrieveGradleProperty false (js ".") (js ":") (js "name")) []))
          = invocations []
            ++ [versionExec (scripted (failed 1 (js "boom")) (failed 1 (js "boom")))
                  false (js ".")].
Proof.
  assert (H : exitCode (versionOutput
                (scripted (failed 1 (js "boom")) (failed 1 (js "boom")))
                [] false (js ".")) <> 0%Z)
    by (simpl; lia).
  split; [exact H|].
  exact (proj1 (proj2 (proj2 (proj2
           (nonzero_exit_rejects
              (scripted (failed 1 (js "boom")) (failed 1 (js "boom")))
              [] false (js ".") (js ":") None (js "name"))))) H).
Defined.

(** ** Absent properties *)

Lemma matchProperty_absent supported property output :
  plainName property = true ->
  Forall (fun l => lineMatches property l = false) (split_lines output) ->
  match matchProperty supported property output with
  | Some (Some matched) => False
  | _ => True
  end.
Proof.
  intros Hp Hl. destruct supported; cbn [matchProperty].
  - destruct (exec (singlePattern property) output) as [m|] eqn:E; [|exact I].
    destruct (single_line property output m Hp E) as (l & Hin & Hm).
    rewrite Forall_forall in Hl. specialize (Hl l Hin).
    unfold lineMatches in Hl.
    destruct (exec (linePattern property) l); [discriminate|congruence].
  - induction Hl as [|l ls Hm Hl IH]; cbn [map find]; [exact I|].
    unfold lineMatches in Hm.
    destruct (exec (linePattern property) l); [discriminate|exact IH].
Qed.

(** C6.  When the property invocation succeeds and no line of its output
    matches the pattern of the property, the retrieval returns [undefined]
    without raising an error, in single-property mode as in full-listing
    mode, and ends with a warning. *)
Theorem retrieveGradleProperty_absent h t u p module property supported output :
  plainName property = true ->
  answersProperties h t u p module property supported output ->
  Forall (fun l => lineMatches property l = false) (split_lines output) ->
  exists t',
    run h (retrieveGradleProperty u p module property) t
    = (Resolved None,
       t' ++ [Logged (warning (js "Failed to retrieve the '" ++ property
                               ++ js "' for '" ++ module ++ js "'"))]).
Proof.
  intros Hp (t1 & Hprobe & Hcode & Hout) Hl.
  rewrite run_retrieveGradleProperty, Hprobe. cbv zeta.
  rewrite Hcode, Hout. cbn [Z.eqb negb].
  pose proof (matchProperty_absent supported property output Hp Hl) as H.
  destruct (matchProperty supported property output) as [[m|]|];
    [destruct H| |]; eexists; reflexivity.
Qed.

(** C6, witness: gradle 7.6 asked for a name it does not print. *)
Lemma retrieveGradleProperty_absent_witness :
  plainName (js "name") = true
  /\ answersProperties
       (scripted (succeeded (banner (js "7.6"))) (succeeded (js "group: g" ++ [LF])))
       [] false (js ".") (js "app") (js "name") true (js "group: g" ++ [LF])
  /\ Forall (fun l => lineMatches (js "name") l = false)
       (split_lines (js "group: g" ++ [LF]))
  /\ exists t',
       run (scripted (succeeded (banner (js "7.6"))) (succeeded (js "group: g" ++ [LF])))
         (retrieveGradleProperty false (js ".") (js "app") (js "name")) []
       = (Resolved None,
          t' ++ [Logged (warning (js "Failed to retrieve the '" ++ js "name"
                                  ++ js "' for '" ++ js "app" ++ js "'"))]).
Proof.
  assert (H : answersProperties
       (scripted (succeeded (banner (js "7.6"))) (succeeded (js "group: g" ++ [LF])))
       [] false (js ".") (js "app") (js "name") true (js "group: g" ++ [LF])).
  { scripted_answers. }
  assert (L : Forall (fun l => lineMatches (js "name") l = false)
                (split_lines (js "group: g" ++ [LF]))).
  { repeat constructor. }
  split; [reflexivity|]. split; [exact H|]. split; [exact L|].
  exact (retrieveGradleProperty_absent _ _ _ _ _ (js "name") _ _ eq_refl H L).
Defined.

(** ** Module references *)

(** C7.  The root module [:] is replaced by the empty string and every
    other module is kept as it is, so that the command path of the root
    module is [:properties] and that of [app] is [app:properties]; the
    [properties] invocation of either mode and the [dependencies]
    invocation are made with the module so normalized. *)
Theorem verifyModule_paths :
  verifyModule (js ":") = js ""
  /\ (forall module, module <> js ":" -> verifyModule module = module)
  /\ verifyModule (js ":") ++ js ":properties" = js ":properties"
  /\ verifyModule (js "app") ++ js ":properties" = js "app:properties"
  /\ (forall supported module property,
        hd [] (propertyArgs supported (verifyModule module) property)
        = verifyModule module ++ js ":properties")
  /\ (forall h t u p module property,
        invocations (snd (run h (retrieveGradleProperty u p module property) t))
        = invocations t ++ versionExec h u p
          :: match fst (run h (singlePropertySupport u p) t) with
             | Resolved supported =>
                 [Exec (retrieveGradleCLI u)
                    (propertyArgs supported (verifyModule module) property)
                    (execOptions p (debugging h))]
             | Rejected _ => []
             end)
  /\ (forall h t u p module configuration,
        invocations
          (snd (run h (retrieveGradleDependencies u p module configuration) t))
        = invocations t
          ++ [Exec (retrieveGradleCLI u)
                ([js "--console"; js "plain"; verifyModule module ++ js ":dependencies"]
                 ++ match configuration with
                    | Some ((_ :: _) as c) => [js "--configuration"; c]
                    | _ => []
                    end)
                (execOptions p (debugging h))]).
Proof.
  repeat split.
  - intros module Hm. unfold verifyModule.
    destruct (jsstring_eqb module (js ":")) eqn:E; [|reflexivity].
    apply jsstring_eqb_eq in E. contradiction.
  - intros [] module property; reflexivity.
  - intros. apply invocations_retrieveGradleProperty.
  - intros. apply invocations_retrieveGradleDependencies.
Qed.

(** C7, witness: the module [app]. *)
Lemma verifyModule_paths_witness :
  js "app" <> js ":" /\ verifyModule (js "app") = js "app".
Proof.
  assert (H : js "app" <> js ":") by (vm_compute; discriminate).
  split; [exact H|].
  exact (proj1 (proj2 verifyModule_paths) (js "app") H).
Defined.

(** ** Invocations per call *)

(** C8, as the code has it.  The capability probe, the dependency listing
    and the build-environment dump invoke one process per call.  The
    property retrieval invokes [--version] and, when the probe succeeded,
    [properties] after it: two processes, each invoked once. *)
Theorem invocations_per_call h t u p module configuration property :
  invocations (snd (run h (singlePropertySupport u p) t))
  = invocations t ++ [versionExec h u p]
  /\ invocations (snd (run h (retrieveGradleDependencies u p module configuration) t))
     = invocations t
       ++ [Exec (retrieveGradleCLI u)
             (dependenciesArgs (verifyModule module) configuration)
             (execOptions p (debugging h))]
  /\ invocations (snd (run h (retrieveGradleBuildEnvironment u p) t))
     = invocations t
       ++ [Exec (retrieveGradleCLI u)
             [js "--console"; js "plain"; js ":buildEnvironment"]
             (execOptions p (debugging h))]
  /\ invocations (snd (run h (retrieveGradleProperty u p module property) t))
     = invocations t ++ versionExec h u p
       :: match fst (run h (singlePropertySupport u p) t) with
          | Resolved supported => [propertyExec h u p module property supported]
          | Rejected _ => []
          end.
Proof.
  repeat split.
  - apply invocations_singlePropertySupport.
  - apply invocations_retrieveGradleDependencies.
  - apply invocations_retrieveGradleBuildEnvironment.
  - apply invocations_retrieveGradleProperty.
Qed.

(** C8, counterexample to one invocation per call: on gradle 7.6 the
    retrieval of the project name invokes [gradle --version] and then
    [gradle :properties -q --property name]. *)
Lemma retrieveGradleProperty_two_invocations :
  invocations
    (snd (run (scripted (succeeded (banner (js "7.6")))
                        (succeeded (js "name: root" ++ [LF])))
              (retrieveGradleProjectName false (js ".")) []))
  = [Exec (js "gradle") [js "--version"]
       {| cwd := js "."; silent := true; ignoreReturnCode := true |};
     Exec (js "gradle") [js ":properties"; js "-q"; js "--property"; js "name"]
       {| cwd := js "."; silent := true; ignoreReturnCode := true |}]
  /\ List.length
       (invocations
          (snd (run (scripted (succeeded (banner (js "7.6")))
                              (succeeded (js "name: root" ++ [LF])))
                    (retrieveGradleProjectName false (js ".")) [])))
     = 2.
Proof. split; reflexivity. Qed.

(** ** The configuration of the dependency listing *)

(** C9.  A non-empty configuration name adds [--configuration] and the
    name to the command line of the dependency listing.  The empty string
    is treated as no configuration: the run is the same as without one, and
    the flag is left out. *)
Theorem dependencies_configuration h t u p module :
  run h (retrieveGradleDependencies u p module (Some (js ""))) t
  = run h (retrieveGradleDependencies u p module None) t
  /\ invocations (snd (run h (retrieveGradleDependencies u p module None) t))
     = invocations t
       ++ [Exec (retrieveGradleCLI u)
             [js "--console"; js "plain"; verifyModule module ++ js ":dependencies"]
             (execOptions p (debugging h))]
  /\ invocations
       (snd (run h (retrieveGradleDependencies u p module (Some (js ""))) t))
     = invocations t
       ++ [Exec (retrieveGradleCLI u)
             [js "--console"; js "plain"; verifyModule module ++ js ":dependencies"]
             (execOptions p (debugging h))]
  /\ (forall configuration,
        configuration <> js "" ->
        invocations
          (snd (run h (retrieveGradleDependencies u p module (Some configuration)) t))
        = invocations t
          ++ [Exec (retrieveGradleCLI u)
                [js "--console"; js "plain"; verifyModule module ++ js ":dependencies";
                 js "--configuration"; configuration]
                (execOptions p (debugging h))]).
Proof.
  split; [reflexivity|]. split; [|split].
  - now rewrite invocations_retrieveGradleDependencies.
  - now rewrite invocations_retrieveGradleDependencies.
  - intros [|x c] Hc; [now elim Hc|].
    now rewrite invocations_retrieveGradleDependencies.
Qed.

(** C9, witness: the configuration [runtimeClasspath] of the module [app]. *)
Lemma dependencies_configuration_witness :
  js "runtimeClasspath" <> js ""
  /\ invocations
       (snd (run (scripted (failed 1 []) (succeeded (js "deps")))
               (retrieveGradleDependencies true (js ".") (js "app")
                  (Some (js "runtimeClasspath"))) []))
     = invocations []
       ++ [Exec (retrieveGradleCLI true)
             [js "--console"; js "plain"; verifyModule (js "app") ++ js ":dependencies";
              js "--configuration"; js "runtimeClasspath"]
             (execOptions (js ".")
                (debugging (scripted (failed 1 []) (succeeded (js "deps")))))].
Proof.
  assert (H : js "runtimeClasspath" <> js "") by (vm_compute; discriminate).
  split; [exact H|].
  exact (proj2 (proj2 (proj2
           (dependencies_configuration
              (scripted (failed 1 []) (succeeded (js "deps")))
              [] true (js ".") (js "app")))) (js "runtimeClasspath") H).
Defined.

(** ** Labels inside longer names *)

(** C10.  The label of a property is looked for anywhere in a line, not
    only at its start: the output [hostname: h\n] has no line for the
    property [name], and yet the retrieval of [name] returns ["h"], the
    value of [hostname], in single-property mode as in full-listing mode. *)
Theorem property_label_substring h t u p module supported :
  answersProperties h t u p module (js "name") supported (js "hostname: h" ++ [LF]) ->
  Forall (fun l => startsWith (js "name: ") l = false)
    (split_lines (js "hostname: h" ++ [LF]))
  /\ fst (run h (retrieveGradleProperty u p module (js "name")) t)
     = Resolved (Some (js "h")).
Proof.
  intros Hh. split; [repeat constructor|].
  rewrite (outcome_retrieveGradleProperty _ _ _ _ _ _ _ _ Hh).
  destruct supported; reflexivity.
Qed.

(** C10, witness: gradle 7.6, in single-property mode, and gradle 7.4, in
    full-listing mode. *)
Lemma property_label_substring_witness :
  (answersProperties
     (scripted (succeeded (banner (js "7.6"))) (succeeded (js "hostname: h" ++ [LF])))
     [] false (js ".") (js ":") (js "name") true (js "hostname: h" ++ [LF])
   /\ fst (run (scripted (succeeded (banner (js "7.6")))
                         (succeeded (js "hostname: h" ++ [LF])))
               (retrieveGradleProperty false (js ".") (js ":") (js "name")) [])
      = Resolved (Some (js "h")))
  /\ (answersProperties
        (scripted (succeeded (banner (js "7.4"))) (succeeded (js "hostname: h" ++ [LF])))
        [] false (js ".") (js ":") (js "name") false (js "hostname: h" ++ [LF])
      /\ fst (run (scripted (succeeded (banner (js "7.4")))
                            (succeeded (js "hostname: h" ++ [LF])))
                  (retrieveGradleProperty false (js ".") (js ":") (js "name")) [])
         = Resolved (Some (js "h"))).
Proof.
  assert (H1 : answersProperties
     (scripted (succeeded (banner (js "7.6"))) (succeeded (js "hostname: h" ++ [LF])))
     [] false (js ".") (js ":") (js "name") true (js "hostname: h" ++ [LF])).
  { scripted_answers. }
  assert (H2 : answersProperties
     (scripted (succeeded (banner (js "7.4"))) (succeeded (js "hostname: h" ++ [LF])))
     [] false (js ".") (js ":") (js "name") false (js "hostname: h" ++ [LF])).
  { scripted_answers. }
  split; (split; [assumption|]).
  - exact (proj2 (property_label_substring _ _ _ _ _ _ H1)).
  - exact (proj2 (property_label_substring _ _ _ _ _ _ H2)).
Defined.

(** * Further properties of gradle.ts *)

(** ** The two listings *)



(** ** How the invocations are made *)

Lemma madeIn_version h u p : madeIn h u p (versionExec h u p).
Proof. unfold madeIn, versionExec, retrieveGradleCLI. cbn. auto. Qed.

(** X2.  Whatever the operation, every process it invokes is the
    configured command line, [./gradlew] or [gradle], run in the project
    path, silent unless debugging is on, and with the exit code left for
    the caller to inspect. *)
Theorem invocations_made_in h t u p module configuration property :
  (exists made,
     invocations (snd (run h (singlePropertySupport u p) t))
     = invocations t ++ made
     /\ Forall (madeIn h u p) made)
  /\ (exists made,
        invocations
          (snd (run h (retrieveGradleDependencies u p module configuration) t))
        = invocations t ++ made
        /\ Forall (madeIn h u p) made)
  /\ (exists made,
        invocations (snd (run h (retrieveGradleBuildEnvironment u p) t))
        = invocations t ++ made
        /\ Forall (madeIn h u p) made)
  /\ (exists made,
        invocations (snd (run h (retrieveGradleProperty u p module property) t))
        = invocations t ++ made
        /\ Forall (madeIn h u p) made).
Proof.
  split; [|split; [|split]]; eexists; split.
  - apply invocations_singlePropertySupport.
  - repeat constructor.
  - apply invocations_retrieveGradleDependencies.
  - repeat constructor.
  - apply invocations_retrieveGradleBuildEnvironment.
  - repeat constructor.
  - apply invocations_retrieveGradleProperty.
  - constructor; [apply madeIn_version|].
    destruct (fst (run h (singlePropertySupport u p) t)); repeat constructor.
Qed.

(** ** Diagnostics *)

Lemma full_singlePropertySupportOf h v t :
  run h (singlePropertySupportOf v) t =
  (match Semver.coerce v with
   | Some sv => Resolved (Semver.gte sv threshold)
   | None => Rejected {| message := js "Failed to parse gradle version: " ++ v |}
   end,
   t ++ match Semver.coerce v with
        | Some sv =>
            if Semver.gte sv threshold then []
            else [Logged (warning
                    (js "The current gradle version does not support retrieving a single property. Found version: "
                     ++ v ++ js "."))]
        | None => []
        end).
Proof.
  unfold singlePropertySupportOf, Semver.satisfies_gte.
  destruct (Semver.coerce v) as [sv|]; [|now rewrite app_nil_r].
  destruct (Semver.gte sv threshold); [now rewrite app_nil_r|reflexivity].
Qed.

Lemma markedFailed_app t t' :
  markedFailed (t ++ t') = markedFailed t || markedFailed t'.
Proof. apply existsb_app. Qed.

Lemma warned_app t t' : warned (t ++ t') = warned t || warned t'.
Proof. apply existsb_app. Qed.

Lemma not_execution_parse v :
  ExecutionError {| message := js "Failed to parse gradle version: " ++ v |} = false.
Proof. reflexivity. Qed.

Lemma markedFailed_singlePropertySupport h t u p :
  markedFailed (snd (run h (singlePropertySupport u p) t))
  = markedFailed t || executionFailure (fst (run h (singlePropertySupport u p) t)).
Proof.
  rewrite run_singlePropertySupport, run_fetchGradleVersion. cbv zeta.
  destruct (negb (exitCode _ =? 0)%Z).
  - cbn [fst snd executionFailure]. rewrite ExecutionError_execute.
    rewrite !markedFailed_app. cbn. now rewrite !orb_true_r.
  - destruct (exec versionPattern _) as [m|].
    + rewrite full_singlePropertySupportOf. cbn [fst snd].
      rewrite !markedFailed_app.
      destruct (Semver.coerce (group m 2)) as [sv|];
        [destruct (Semver.gte sv threshold)|];
        cbn [executionFailure]; rewrite ?not_execution_parse; cbn;
        now rewrite ?orb_false_r.
    + cbn [fst snd executionFailure].
      destruct (debugging h); rewrite !markedFailed_app; cbn;
        now rewrite ?orb_false_r.
Qed.

(** X3.  An operation marks the action as failed, by [core.setFailed],
    exactly when it rejects with an execution error.  A version that cannot
    be extracted or coerced, a version below the threshold and an absent
    property never mark it. *)
Theorem setFailed_iff_execution_error h t u p module configuration property :
  markedFailed (snd (run h (singlePropertySupport u p) t))
  = markedFailed t || executionFailure (fst (run h (singlePropertySupport u p) t))
  /\ markedFailed
       (snd (run h (retrieveGradleDependencies u p module configuration) t))
     = markedFailed t
       || executionFailure
            (fst (run h (retrieveGradleDependencies u p module configuration) t))
  /\ markedFailed (snd (run h (retrieveGradleBuildEnvironment u p) t))
     = markedFailed t
       || executionFailure (fst (run h (retrieveGradleBuildEnvironment u p) t))
  /\ markedFailed (snd (run h (retrieveGradleProperty u p module property) t))
     = markedFailed t
       || executionFailure
            (fst (run h (retrieveGradleProperty u p module property) t)).
Proof.
  split; [apply markedFailed_singlePropertySupport|]. split; [|split].
  - unfold retrieveGradleDependencies.
    destruct configuration as [[|x c]|];
      cbn [bind dateNow isDebug run getExecOutput]; cbv zeta;
      destruct (negb (exitCode _ =? 0)%Z);
      cbn [bind dateNow core run fst snd executionFailure];
      rewrite ?ExecutionError_execute, !markedFailed_app; cbn;
      now rewrite ?orb_false_r, ?orb_true_r.
  - unfold retrieveGradleBuildEnvironment.
    cbn [bind dateNow isDebug run getExecOutput]; cbv zeta;
      destruct (negb (exitCode _ =? 0)%Z);
      cbn [bind dateNow core run fst snd executionFailure];
      rewrite ?ExecutionError_execute, !markedFailed_app; cbn;
      now rewrite ?orb_false_r, ?orb_true_r.
  - rewrite run_retrieveGradleProperty.
    pose proof (markedFailed_singlePropertySupport h t u p) as H.
    destruct (run h (singlePropertySupport u p) t) as [[supported|e] t1];
      cbn [fst snd executionFailure] in *; [|exact H].
    rewrite orb_false_r in H. cbv zeta.
    destruct (negb (exitCode _ =? 0)%Z).
    + cbn [fst snd executionFailure]. rewrite ExecutionError_execute.
      rewrite !markedFailed_app. cbn. now rewrite !orb_true_r.
    + destruct (matchProperty supported property _) as [[m|]|];
        cbn [fst snd executionFailure]; rewrite !markedFailed_app, H; cbn;
        now rewrite ?orb_false_r.
Qed.

(** X4.  The capability probe warns exactly when it resolves to [false]:
    never when the capability is present, and never when it fails. *)
Theorem probe_warns_iff_false h t u p :
  warned (snd (run h (singlePropertySupport u p) t))
  = warned t
    || match fst (run h (singlePropertySupport u p) t) with
       | Resolved false => true
       | _ => false
       end.
Proof.
  rewrite run_singlePropertySupport, run_fetchGradleVersion. cbv zeta.
  destruct (negb (exitCode _ =? 0)%Z).
  - cbn [fst snd]. rewrite !warned_app. cbn. now rewrite !orb_false_r.
  - destruct (exec versionPattern _) as [m|].
    + rewrite full_singlePropertySupportOf. cbn [fst snd]. rewrite !warned_app.
      destruct (Semver.coerce (group m 2)) as [sv|];
        [destruct (Semver.gte sv threshold)|]; cbn;
        now rewrite ?orb_false_r, ?orb_true_r.
    + cbn [fst snd]. destruct (debugging h); rewrite !warned_app; cbn;
        now rewrite ?orb_false_r.
Qed.

(** ** Line endings *)

Lemma dashBeforeLF_found (a b : jsstring) :
  dashBeforeLF (a ++ js "-" ++ LF :: b) = true.
Proof.
  induction a as [|x a IH]; [reflexivity|].
  cbn [app dashBeforeLF]. cbn [app] in IH. rewrite IH. apply orb_true_r.
Qed.

(** X5.  The version probe fails with a parse error unless the output
    holds a dash directly followed by a line feed and a line feed directly
    followed by a dash.  A banner whose lines end in a carriage return and
    a line feed is therefore not recognized. *)
Theorem fetchGradleVersion_line_feeds h t u p output :
  printsVersion h t u p output ->
  dashBeforeLF output = false \/ dashAfterLF output = false ->
  fst (run h (fetchGradleVersion u p) t)
  = Rejected {| message := js "Failed to extract gradle version" |}.
Proof.
  intros Hp Hd. rewrite (outcome_fetchGradleVersion _ _ _ _ _ Hp).
  destruct (exec versionPattern output) as [m|] eqn:E; [|reflexivity].
  exfalso. apply version_sound in E as (pre & v & post & -> & _ & _).
  unfold delimited in Hd. destruct Hd as [Hd|Hd].
  - replace (pre ++ (js "-" ++ [LF] ++ js "Gradle " ++ v ++ [LF] ++ js "-") ++ post)
      with (pre ++ js "-" ++ LF :: (js "Gradle " ++ v ++ [LF] ++ js "-") ++ post) in Hd
      by (rewrite <- !app_assoc; reflexivity).
    rewrite dashBeforeLF_found in Hd. discriminate.
  - replace (pre ++ (js "-" ++ [LF] ++ js "Gradle " ++ v ++ [LF] ++ js "-") ++ post)
      with ((pre ++ js "-" ++ [LF] ++ js "Gradle " ++ v) ++ LF :: js "-" ++ post) in Hd
      by (rewrite <- !app_assoc; reflexivity).
    rewrite dashAfterLF_found in Hd. discriminate.
Qed.

(** X5, witness: the banner of gradle 7.6 with CR LF line endings. *)
Lemma fetchGradleVersion_line_feeds_witness :
  printsVersion
    (scripted (succeeded (js "------" ++ [CR; LF] ++ js "Gradle 7.6" ++ [CR; LF]
                          ++ js "------" ++ [CR; LF]))
              (failed 1 []))
    [] false (js ".")
    (js "------" ++ [CR; LF] ++ js "Gradle 7.6" ++ [CR; LF] ++ js "------" ++ [CR; LF])
  /\ (dashBeforeLF (js "------" ++ [CR; LF] ++ js "Gradle 7.6" ++ [CR; LF]
                    ++ js "------" ++ [CR; LF]) = false
      \/ dashAfterLF (js "------" ++ [CR; LF] ++ js "Gradle 7.6" ++ [CR; LF]
                      ++ js "------" ++ [CR; LF]) = false)
  /\ fst (run (scripted
                 (succeeded (js "------" ++ [CR; LF] ++ js "Gradle 7.6" ++ [CR; LF]
                             ++ js "------" ++ [CR; LF]))
                 (failed 1 []))
            (fetchGradleVersion false (js ".")) [])
     = Rejected {| message := js "Failed to extract gradle version" |}.
Proof.
  assert (H : printsVersion
    (scripted (succeeded (js "------" ++ [CR; LF] ++ js "Gradle 7.6" ++ [CR; LF]
                          ++ js "------" ++ [CR; LF]))
              (failed 1 []))
    [] false (js ".")
    (js "------" ++ [CR; LF] ++ js "Gradle 7.6" ++ [CR; LF] ++ js "------" ++ [CR; LF]))
    by (split; reflexivity).
  assert (D : dashBeforeLF (js "------" ++ [CR; LF] ++ js "Gradle 7.6" ++ [CR; LF]
                    ++ js "------" ++ [CR; LF]) = false
      \/ dashAfterLF (js "------" ++ [CR; LF] ++ js "Gradle 7.6" ++ [CR; LF]
                      ++ js "------" ++ [CR; LF]) = false)
    by (left; reflexivity).
  split; [exact H|]. split; [exact D|].
  exact (fetchGradleVersion_line_feeds _ _ _ _ _ H D).
Defined.

(** X6.  For a property name without pattern syntax, in single-property
    mode the value must be followed directly by a line feed: an output in
    which no line feed follows a character other than a line terminator,
    for one without line feed or with CR LF line endings, gives
    [undefined] even when it holds the property. *)
Theorem retrieveGradleProperty_single_unclosed h t u p module property output :
  plainName property = true ->
  answersProperties h t u p module property true output ->
  closedLine output = false ->
  fst (run h (retrieveGradleProperty u p module property) t) = Resolved None.
Proof.
  intros _ Hh Hc. rewrite (outcome_retrieveGradleProperty _ _ _ _ _ _ _ _ Hh).
  cbn [matchProperty].
  destruct (exec (singlePattern property) output) as [m|] eqn:E; [|reflexivity].
  apply single_closedLine in E. congruence.
Qed.

(** X6, witness: gradle 7.6 printing the name without a final line feed. *)
Lemma retrieveGradleProperty_single_unclosed_witness :
  plainName (js "name") = true
  /\ answersProperties
    (scripted (succeeded (banner (js "7.6"))) (succeeded (js "name: root")))
    [] false (js ".") (js ":") (js "name") true (js "name: root")
  /\ closedLine (js "name: root") = false
  /\ fst (run (scripted (succeeded (banner (js "7.6"))) (succeeded (js "name: root")))
            (retrieveGradleProperty false (js ".") (js ":") (js "name")) [])
     = Resolved None.
Proof.
  assert (H : answersProperties
    (scripted (succeeded (banner (js "7.6"))) (succeeded (js "name: root")))
    [] false (js ".") (js ":") (js "name") true (js "name: root")).
  { scripted_answers. }
  split; [reflexivity|]. split; [exact H|]. split; [reflexivity|].
  exact (retrieveGradleProperty_single_unclosed _ _ _ _ _ (js "name") _
           eq_refl H eq_refl).
Defined.

(** X7.  On a line that ends in a carriage return and a line feed the two
    modes differ: single-property mode finds nothing, full-listing mode
    returns the value without the carriage return. *)
Theorem retrieveGradleProperty_crlf h t u p module property value supported :
  plainName property = true ->
  oneLine value = true ->
  answersProperties h t u p module property supported
    ((property ++ js ": ") ++ value ++ [CR; LF]) ->
  fst (run h (retrieveGradleProperty u p module property) t)
  = Resolved (if supported then None else Some value).
Proof.
  intros Hp Hv Hh.
  rewrite (outcome_retrieveGradleProperty _ _ _ _ _ _ _ _ Hh).
  destruct supported.
  - cbn [matchProperty]. rewrite single_unclosed; [reflexivity|].
    rewrite app_assoc. apply closedLine_crlf. now apply label_value_noLF.
  - now destruct (listing_crlf property value Hp Hv) as (m & -> & ->).
Qed.

(** X7, witness: the name of the project, printed with CR LF, on gradle
    7.4. *)
Lemma retrieveGradleProperty_crlf_witness :
  plainName (js "name") = true
  /\ oneLine (js "root") = true
  /\ answersProperties
       (scripted (succeeded (banner (js "7.4")))
                 (succeeded ((js "name" ++ js ": ") ++ js "root" ++ [CR; LF])))
       [] false (js ".") (js ":") (js "name") false
       ((js "name" ++ js ": ") ++ js "root" ++ [CR; LF])
  /\ fst (run (scripted (succeeded (banner (js "7.4")))
                 (succeeded ((js "name" ++ js ": ") ++ js "root" ++ [CR; LF])))
            (retrieveGradleProperty false (js ".") (js ":") (js "name")) [])
     = Resolved (if false then None else Some (js "root")).
Proof.
  assert (H : answersProperties
       (scripted (succeeded (banner (js "7.4")))
                 (succeeded ((js "name" ++ js ": ") ++ js "root" ++ [CR; LF])))
       [] false (js ".") (js ":") (js "name") false
       ((js "name" ++ js ": ") ++ js "root" ++ [CR; LF])).
  { scripted_answers. }
  split; [reflexivity|]. split; [reflexivity|]. split; [exact H|].
  exact (retrieveGradleProperty_crlf _ _ _ _ _ (js "name") (js "root") false
           eq_refl eq_refl H).
Defined.

(** ** What the property retrieval returns *)

Lemma matchProperty_second supported property output m :
  matchProperty supported property output = Some (Some m) ->
  exists value, m 2 = Some value.
Proof.
  destruct supported; cbn [matchProperty]; intros H.
  - injection H as H. apply single_sound in H as (_ & v & _ & _ & _ & H). eauto.
  - apply find_some in H as [H _]. apply in_map_iff in H as (l & H & _).
    apply line_sound in H as (_ & v & _ & _ & _ & H). eauto.
Qed.

(** X8.  For a property name without pattern syntax: when the
    [properties] invocation succeeds, the retrieval resolves to the value
    found and logs nothing, or resolves to [undefined] and logs one
    warning: a match always carries a value, and the warning is given
    exactly for [undefined]. *)
Theorem retrieval_warns_iff_undefined h t u p module property supported t1 :
  plainName property = true ->
  run h (singlePropertySupport u p) t = (Resolved supported, t1) ->
  exitCode (propertyOutput h t1 u p module property supported) = 0%Z ->
  run h (retrieveGradleProperty u p module property) t
  = (Resolved (propertyValue supported property
                 (stdout (propertyOutput h t1 u p module property supported))),
     t1 ++ propertyExec h u p module property supported
        :: match propertyValue supported property
                   (stdout (propertyOutput h t1 u p module property supported)) with
           | Some _ => []
           | None =>
               [Logged (warning (js "Failed to retrieve the '" ++ property
                                 ++ js "' for '" ++ module ++ js "'"))]
           end).
Proof.
  intros _ Hprobe Hcode. rewrite run_retrieveGradleProperty, Hprobe. cbv zeta.
  rewrite Hcode. cbn [Z.eqb negb]. unfold propertyValue.
  destruct (matchProperty supported property _) as [[m|]|] eqn:E.
  - destruct (matchProperty_second _ _ _ _ E) as (v & Hv). now rewrite Hv.
  - now rewrite <- app_assoc.
  - now rewrite <- app_assoc.
Qed.

(** X8, witness: gradle 7.4 listing properties without a build file. *)
Lemma retrieval_warns_iff_undefined_witness :
  plainName (js "buildFile") = true
  /\ run (scripted (succeeded (banner (js "7.4"))) (succeeded (unlines [js "name: root"])))
    (singlePropertySupport false (js ".")) []
  = (Resolved false,
     [versionExec (scripted (succeeded (banner (js "7.4")))
                            (succeeded (unlines [js "name: root"])))
        false (js ".");
      Logged (warning
        (js "The current gradle version does not support retrieving a single property. Found version: 7.4."))])
  /\ fst (run (scripted (succeeded (banner (js "7.4")))
                        (succeeded (unlines [js "name: root"])))
            (retrieveGradleProperty false (js ".") (js "app") (js "buildFile")) [])
     = Resolved None.
Proof.
  assert (H : run (scripted (succeeded (banner (js "7.4")))
                            (succeeded (unlines [js "name: root"])))
                (singlePropertySupport false (js ".")) []
              = (Resolved false,
                 [versionExec (scripted (succeeded (banner (js "7.4")))
                                        (succeeded (unlines [js "name: root"])))
                    false (js ".");
                  Logged (warning
                    (js "The current gradle version does not support retrieving a single property. Found version: 7.4."))]))
    by reflexivity.
  split; [reflexivity|]. split; [exact H|].
  rewrite (retrieval_warns_iff_undefined _ _ _ _ (js "app") (js "buildFile") _ _
             eq_refl H eq_refl).
  reflexivity.
Defined.

Lemma span (p : N -> bool) (s : jsstring) :
  exists w r,
    s = w ++ r /\ forallb p w = true
    /\ match r with [] => True | x :: _ => p x = false end.
Proof.
  induction s as [|x s (w & r & -> & Hw & Hr)].
  - exists [], []. auto.
  - destruct (p x) eqn:Hx.
    + exists (x :: w), r. cbn [forallb app]. rewrite Hx, Hw. auto.
    + exists [], (x :: w ++ r). auto.
Qed.

Lemma repeatClass_greedy_short (p : N -> bool) (s : jsstring) k :
  match s with [] => True | x :: _ => p x = false end ->
  repeatClass true p 1 None s k = None.
Proof.
  intros H. rewrite RegExpFacts.repeatClass_eq. cbv zeta.
  destruct s as [|x s]; [reflexivity|]. now rewrite H.
Qed.

(** The value the line pattern captures runs to the end of the line or
    to the next line terminator. *)
Lemma line_exact property l m :
  exec (linePattern property) l = Some m ->
  exists pre value post,
    l = pre ++ (property ++ js ": ") ++ value ++ post
    /\ oneLine value = true /\ m 2 = Some value
    /\ match post with [] => True | x :: _ => lineTerminator x = true end.
Proof.
  intros H. apply RegExpFacts.search_sound in H as (pre & rest & b & -> & H).
  rewrite attempt_line in H.
  apply RegExpFacts.repeatClass_sound in H as (w & rest1 & -> & _ & _ & _ & H).
  destruct (startsWith (property ++ js ": ") rest1) eqn:Hl; [|discriminate].
  apply startsWith_split in Hl. rewrite Hl in H at 1. rewrite skipn_exact in H.
  destruct (span (accepts Dot) (skipn (List.length (property ++ js ": ")) rest1))
    as (v & r & Hs & Hv & Hr).
  rewrite Hs in H. destruct v as [|x v].
  - rewrite repeatClass_greedy_short in H by exact Hr. discriminate.
  - erewrite RegExpFacts.repeatClass_greedy_run in H;
      [|exact Hv|exact Hr|simpl; lia|reflexivity].
    injection H as <-.
    exists (pre ++ w), (x :: v), r. repeat split.
    + rewrite Hl, Hs, <- !app_assoc. reflexivity.
    + apply run_oneLine; [exact Hv|simpl; lia].
    + destruct r as [|y r]; [exact I|]. cbn [accepts] in Hr.
      now apply negb_false_iff in Hr.
Qed.

(** X9.  For a property name without pattern syntax, in full-listing
    mode a value that is returned stands on a line of the output, directly
    after the property name, a colon and a space; it is not empty, holds no
    line terminator, and runs to the end of the line or to the first
    carriage return or other line terminator in it. *)
Theorem retrieveGradleProperty_listing_value h t u p module property output value :
  plainName property = true ->
  answersProperties h t u p module property false output ->
  fst (run h (retrieveGradleProperty u p module property) t)
  = Resolved (Some value) ->
  oneLine value = true
  /\ exists l pre post,
       In l (split_lines output)
       /\ l = pre ++ (property ++ js ": ") ++ value ++ post
       /\ match post with [] => True | x :: _ => lineTerminator x = true end.
Proof.
  intros _ Hh. rewrite (outcome_retrieveGradleProperty _ _ _ _ _ _ _ _ Hh).
  cbn [matchProperty]. intros H.
  destruct (find _ _) as [[m|]|] eqn:E; try discriminate.
  apply find_some in E as [E _]. apply in_map_iff in E as (l & E & Hin).
  apply line_exact in E as (pre & v & post & -> & Hv & Hm & Hpost).
  injection H as H. rewrite Hm in H. injection H as <-.
  split; [exact Hv|]. exists (pre ++ (property ++ js ": ") ++ v ++ post), pre, post.
  auto.
Qed.

(** X9, witness: a name followed by a carriage return, on gradle 7.4. *)
Lemma retrieveGradleProperty_listing_value_witness :
  plainName (js "name") = true
  /\ answersProperties
    (scripted (succeeded (banner (js "7.4")))
              (succeeded (js "name: root" ++ [CR; LF])))
    [] false (js ".") (js ":") (js "name") false (js "name: root" ++ [CR; LF])
  /\ fst (run (scripted (succeeded (banner (js "7.4")))
                        (succeeded (js "name: root" ++ [CR; LF])))
            (retrieveGradleProperty false (js ".") (js ":") (js "name")) [])
     = Resolved (Some (js "root"))
  /\ oneLine (js "root") = true.
Proof.
  assert (H : answersProperties
    (scripted (succeeded (banner (js "7.4")))
              (succeeded (js "name: root" ++ [CR; LF])))
    [] false (js ".") (js ":") (js "name") false (js "name: root" ++ [CR; LF])).
  { scripted_answers. }
  assert (R : fst (run (scripted (succeeded (banner (js "7.4")))
                        (succeeded (js "name: root" ++ [CR; LF])))
            (retrieveGradleProperty false (js ".") (js ":") (js "name")) [])
     = Resolved (Some (js "root"))) by reflexivity.
  split; [reflexivity|]. split; [exact H|]. split; [exact R|].
  exact (proj1 (retrieveGradleProperty_listing_value _ _ _ _ _ (js "name") _ _
                  eq_refl H R)).
Defined.

(** ** Parse errors of the property retrieval *)

(** X10.  When the [--version] invocation succeeds but its output holds
    no version, or one that cannot be coerced, the property retrieval fails
    with a parse error and never runs the [properties] invocation. *)
Theorem retrieveGradleProperty_parse_error h t u p module property output :
  printsVersion h t u p output ->
  (forall version,
     fst (run h (fetchGradleVersion u p) t) = Resolved version ->
     Semver.coerce version = None) ->
  exists e,
    fst (run h (retrieveGradleProperty u p module property) t) = Rejected e
    /\ ParseError e = true
    /\ invocations (snd (run h (retrieveGradleProperty u p module property) t))
       = invocations t ++ [versionExec h u p].
Proof.
  intros Hp Hc.
  assert (P : exists e, fst (run h (singlePropertySupport u p) t) = Rejected e
                        /\ ParseError e = true).
  { rewrite run_singlePropertySupport.
    pose proof (outcome_fetchGradleVersion _ _ _ _ _ Hp) as Ho.
    destruct (run h (fetchGradleVersion u p) t) as [[v|e] t1]; cbn [fst] in *.
    - rewrite run_singlePropertySupportOf, (Hc v eq_refl).
      eexists. split; [reflexivity|apply ParseError_parse].
    - destruct (exec versionPattern output); [discriminate|].
      injection Ho as ->. eexists. split; reflexivity. }
  destruct P as (e & He & Hpe). exists e.
  rewrite invocations_retrieveGradleProperty, run_retrieveGradleProperty.
  destruct (run h (singlePropertySupport u p) t) as [[b|e'] t1]; cbn [fst] in *;
    [discriminate|].
  injection He as ->. auto.
Qed.

(** X10, witness: a banner with the version [x.y]. *)
Lemma retrieveGradleProperty_parse_error_witness :
  printsVersion (scripted (succeeded (banner (js "x.y"))) (succeeded []))
    [] false (js ".") (banner (js "x.y"))
  /\ exists e,
       fst (run (scripted (succeeded (banner (js "x.y"))) (succeeded []))
              (retrieveGradleProperty false (js ".") (js ":") (js "name")) [])
       = Rejected e
       /\ ParseError e = true
       /\ invocations
            (snd (run (scripted (succeeded (banner (js "x.y"))) (succeeded []))
                    (retrieveGradleProperty false (js ".") (js ":") (js "name")) []))
          = invocations []
            ++ [versionExec (scripted (succeeded (banner (js "x.y"))) (succeeded []))
                  false (js ".")].
Proof.
  assert (H : printsVersion (scripted (succeeded (banner (js "x.y"))) (succeeded []))
                [] false (js ".") (banner (js "x.y")))
    by (split; reflexivity).
  split; [exact H|].
  apply (retrieveGradleProperty_parse_error _ _ _ _ (js ":") (js "name") _ H).
  intros version Hv. vm_compute in Hv. injection Hv as <-. reflexivity.
Defined.

(** ** The two modes on the same output *)

Lemma attempt_singleTail p b s :
  attempt (singlePattern p) b s
  = repeatClass false (accepts Any) 0 None s (singleTail p).
Proof. reflexivity. Qed.

Lemma attempt_lineTail p b s :
  attempt (linePattern p) b s
  = repeatClass false (accepts Any) 0 None s (lineTail p).
Proof. reflexivity. Qed.

Lemma second_none (o : option captures) : second o = None -> o = None.
Proof. destruct o; [discriminate|reflexivity]. Qed.

Lemma second_some (o : option captures) v :
  second o = Some v -> exists m, o = Some m /\ m 2 = v.
Proof. destruct o as [m|]; [|discriminate]. intros [= <-]. eauto. Qed.

Lemma second_orelse (a1 a2 b1 b2 : option captures) :
  second a1 = second a2 -> second b1 = second b2 ->
  second match a1 with Some r => Some r | None => b1 end
  = second match a2 with Some r => Some r | None => b2 end.
Proof. destruct a1, a2; cbn; congruence. Qed.

(** Quantifiers whose continuations agree on the second group agree on
    it. *)
Lemma repeatClass_second greedy p s :
  forall min max k1 k2,
    (forall w r, second (k1 w r) = second (k2 w r)) ->
    second (repeatClass greedy p min max s k1)
    = second (repeatClass greedy p min max s k2).
Proof.
  induction s as [|x s IH]; intros min max k1 k2 H.
  - specialize (H [] []). simpl.
    destruct greedy, (Nat.eqb min 0); simpl; try reflexivity;
      destruct (k1 [] []), (k2 [] []); simpl in *; congruence.
  - rewrite !(RegExpFacts.repeatClass_eq greedy p min max). cbv zeta.
    assert (Hmore :
      second (if p x && negb (exhausted max)
              then repeatClass greedy p (Nat.pred min) (option_map Nat.pred max) s
                     (fun w rest => k1 (x :: w) rest)
              else None)
      = second (if p x && negb (exhausted max)
                then repeatClass greedy p (Nat.pred min) (option_map Nat.pred max) s
                       (fun w rest => k2 (x :: w) rest)
                else None)).
    { destruct (p x && negb (exhausted max)); [|reflexivity].
      apply IH. intros. apply H. }
    assert (Hstop :
      second (if Nat.eqb min 0 then k1 [] (x :: s) else None)
      = second (if Nat.eqb min 0 then k2 [] (x :: s) else None)).
    { destruct (Nat.eqb min 0); auto. }
    destruct greedy; apply second_orelse; assumption.
Qed.

Lemma singleTail_consumed p w w' rest :
  second (singleTail p w rest) = second (singleTail p w' rest).
Proof.
  unfold singleTail. destruct (startsWith (p ++ js ": ") rest); [|reflexivity].
  apply repeatClass_second. intros w2 r.
  destruct (startsWith [LF] r); reflexivity.
Qed.

(** A lazy quantifier over a line and over the same line followed by more
    text: when the continuations agree on the positions of the line, either
    both stop in the line with the same second group, or the second goes on
    behind the line. *)
Lemma lazy_line p l :
  forall tail k1 k2,
    forallb p l = true ->
    (forall a c, l = a ++ c -> second (k1 a c) = second (k2 a (c ++ tail))) ->
    match repeatClass false p 0 None l k1 with
    | Some m1 =>
        second (repeatClass false p 0 None (l ++ tail) k2) = Some (m1 2)
    | None =>
        repeatClass false p 0 None (l ++ tail) k2
        = repeatClass false p 0 None tail (fun w r => k2 (l ++ w) r)
    end.
Proof.
  induction l as [|x l IH]; intros tail k1 k2 Hp H.
  - rewrite (RegExpFacts.repeatClass_eq false p 0 None []). cbv zeta.
    cbn [Nat.eqb]. pose proof (H [] [] eq_refl) as H0. cbn [app] in H0.
    destruct (k1 [] []) as [m1|]; [|reflexivity].
    symmetry in H0. apply second_some in H0 as (m2 & H2 & <-).
    cbn [app]. rewrite RegExpFacts.repeatClass_eq. cbv zeta. cbn [Nat.eqb].
    now rewrite H2.
  - cbn [forallb] in Hp. apply andb_true_iff in Hp as [Hx Hp].
    rewrite (RegExpFacts.repeatClass_eq false p 0 None (x :: l)). cbv zeta.
    cbn [Nat.eqb exhausted negb option_map Nat.pred]. rewrite Hx. cbn [andb].
    pose proof (H [] (x :: l) eq_refl) as H0. cbn [app] in H0.
    cbn [app].
    rewrite (RegExpFacts.repeatClass_eq false p 0 None (x :: l ++ tail)).
    cbv zeta. cbn [Nat.eqb exhausted negb option_map Nat.pred].
    rewrite Hx. cbn [andb].
    destruct (k1 [] (x :: l)) as [m1|].
    + symmetry in H0. apply second_some in H0 as (m2 & H2 & <-).
      now rewrite H2.
    + symmetry in H0. apply second_none in H0. rewrite H0.
      apply (IH tail (fun w r => k1 (x :: w) r) (fun w r => k2 (x :: w) r) Hp).
      intros a c ->. apply (H (x :: a) c eq_refl).
Qed.

Lemma startsWith_noLF (q : jsstring) :
  forall c rest,
    forallb (fun x => negb (N.eqb x LF)) q = true ->
    startsWith q (c ++ LF :: rest) = startsWith q c.
Proof.
  induction q as [|y q IH]; intros c rest Hq; [reflexivity|].
  cbn [forallb] in Hq. apply andb_true_iff in Hq as [Hy Hq].
  apply negb_true_iff in Hy.
  destruct c as [|z c]; cbn [app startsWith].
  - now rewrite Hy.
  - now rewrite IH.
Qed.

Lemma label_nonempty (property : jsstring) :
  startsWith (property ++ js ": ") [] = false.
Proof. destruct property; reflexivity. Qed.

(** On a position of a line without line terminator, the line pattern on
    the line and the single-property pattern on the line followed by a
    line feed capture the same value. *)
Lemma tails_agree property a a' c rest :
  plainName property = true ->
  forallb (accepts Dot) c = true ->
  second (lineTail property a c)
  = second (singleTail property a' (c ++ LF :: rest)).
Proof.
  intros Hp Hc. unfold lineTail, singleTail.
  rewrite startsWith_noLF by now apply plainName_noLF.
  destruct (startsWith (property ++ js ": ") c) eqn:Hl; [|reflexivity].
  apply startsWith_split in Hl.
  remember (skipn (List.length (property ++ js ": ")) c) as c' eqn:Ec.
  rewrite Hl, <- app_assoc, skipn_exact. rewrite Hl in Hc.
  rewrite forallb_app in Hc. apply andb_true_iff in Hc as [_ Hc].
  destruct c' as [|x c'].
  - rewrite !repeatClass_greedy_short; [reflexivity|reflexivity|exact I].
  - rewrite <- (app_nil_r (x :: c')) at 1.
    rewrite (RegExpFacts.repeatClass_greedy_run (accepts Dot) (x :: c') 1 [] _ _
               Hc I ltac:(simpl; lia) eq_refl).
    rewrite (RegExpFacts.repeatClass_greedy_run (accepts Dot) (x :: c') 1
               (LF :: rest) _ _ Hc eq_refl ltac:(simpl; lia) eq_refl).
    reflexivity.
Qed.

Lemma single_attempt_complete p pre v post b :
  oneLine v = true ->
  attempt (singlePattern p) b (pre ++ (p ++ js ": ") ++ v ++ LF :: post) <> None.
Proof.
  intros Hv. apply oneLine_run in Hv as [Hv Hlen].
  rewrite attempt_single.
  apply repeatClass_lazy_some; [apply any_all|].
  rewrite startsWith_app, skipn_exact.
  erewrite RegExpFacts.repeatClass_greedy_run; eauto; try discriminate; reflexivity.
Qed.

Lemma line_attempt_complete p pre v post b :
  oneLine v = true ->
  attempt (linePattern p) b (pre ++ (p ++ js ": ") ++ v ++ post) <> None.
Proof.
  intros Hv. apply oneLine_run in Hv as [Hv Hlen].
  rewrite attempt_line.
  apply repeatClass_lazy_some; [apply any_all|].
  rewrite startsWith_app, skipn_exact.
  apply repeatClass_greedy_some; [discriminate|].
  exists v, post. auto.
Qed.

(** Both property patterns start with a lazy quantifier over every
    character, so that a match is found by the attempt at the start. *)
Lemma exec_single_attempt p s :
  exec (singlePattern p) s = attempt (singlePattern p) true s.
Proof.
  destruct (attempt (singlePattern p) true s) as [m|] eqn:E.
  - now apply search_attempt.
  - destruct (exec (singlePattern p) s) as [m|] eqn:F; [|reflexivity].
    apply single_sound in F as (pre & v & post & -> & Hv & _).
    now apply single_attempt_complete in E.
Qed.

Lemma exec_line_attempt p s :
  exec (linePattern p) s = attempt (linePattern p) true s.
Proof.
  destruct (attempt (linePattern p) true s) as [m|] eqn:E.
  - now apply search_attempt.
  - destruct (exec (linePattern p) s) as [m|] eqn:F; [|reflexivity].
    apply line_sound in F as (pre & v & post & -> & Hv & _).
    now apply line_attempt_complete in E.
Qed.

Lemma split_lines_unlines (ls : list jsstring) :
  Forall (fun l => forallb (accepts Dot) l = true) ls ->
  split_lines (unlines ls) = ls ++ [[]].
Proof.
  induction 1 as [|l ls Hl _ IH]; [reflexivity|].
  cbn [unlines app]. rewrite split_lines_line by now apply dot_noLF.
  now rewrite IH.
Qed.

Lemma modes_on_lines property (ls : list jsstring) :
  plainName property = true ->
  Forall (fun l => forallb (accepts Dot) l = true) ls ->
  forall k,
    (forall w r, second (k w r) = second (singleTail property [] r)) ->
    second (repeatClass false (accepts Any) 0 None (unlines ls) k)
    = second match find (fun it => match it with Some _ => true | None => false end)
                        (map (fun it => exec (linePattern property) it) (ls ++ [[]])) with
             | Some o => o
             | None => None
             end.
Proof.
  intros Hp Hls. induction Hls as [|l ls Hl Hls IH]; intros k Hk.
  - cbn [unlines app map find].
    rewrite exec_line_attempt, attempt_lineTail.
    rewrite !(RegExpFacts.repeatClass_eq false _ 0 None []). cbv zeta.
    cbn [Nat.eqb]. unfold lineTail at 1. rewrite label_nonempty.
    pose proof (Hk [] []) as H0. unfold singleTail in H0.
    rewrite label_nonempty in H0. apply second_none in H0. now rewrite H0.
  - cbn [unlines app map find].
    rewrite exec_line_attempt, attempt_lineTail.
    pose proof (lazy_line (accepts Any) l (LF :: unlines ls)
                  (lineTail property) k (any_all l)) as HL.
    destruct (repeatClass false (accepts Any) 0 None l (lineTail property))
      as [m1|].
    + apply HL. intros a c ->. rewrite Hk.
      apply tails_agree; [exact Hp|].
      rewrite forallb_app in Hl. now apply andb_true_iff in Hl as [_ Hl].
    + rewrite HL.
      2:{ intros a c ->. rewrite Hk.
          apply tails_agree; [exact Hp|].
          rewrite forallb_app in Hl. now apply andb_true_iff in Hl as [_ Hl]. }
      rewrite RegExpFacts.repeatClass_eq. cbv zeta.
      cbn [Nat.eqb exhausted negb option_map Nat.pred accepts andb].
      pose proof (Hk (l ++ []) (LF :: unlines ls)) as H0.
      unfold singleTail in H0.
      change (LF :: unlines ls) with ([] ++ LF :: unlines ls) in H0 at 2.
      rewrite startsWith_noLF, label_nonempty in H0 by now apply plainName_noLF.
      apply second_none in H0. rewrite H0.
      apply IH. intros w r. apply Hk.
Qed.

Lemma propertyValue_modes property (ls : list jsstring) :
  plainName property = true ->
  Forall (fun l => forallb (accepts Dot) l = true) ls ->
  propertyValue true property (unlines ls)
  = propertyValue false property (unlines ls).
Proof.
  intros Hp Hls. unfold propertyValue. cbn [matchProperty].
  rewrite split_lines_unlines by exact Hls.
  pose proof (modes_on_lines property ls Hp Hls (singleTail property)
                (fun w r => singleTail_consumed property w [] r)) as H.
  rewrite <- attempt_singleTail with (b := true) in H.
  rewrite <- exec_single_attempt in H.
  destruct (exec (singlePattern property) (unlines ls)) as [m|];
    destruct (find _ _) as [[m'|]|]; cbn in H; congruence.
Qed.

(** X11.  On an output whose lines hold no carriage return or other line
    terminator and are each closed by a line feed, the two modes return the
    same result: the full listing is a faithful fallback of the
    single-property query. *)
Theorem retrieveGradleProperty_modes_agree
    h t u p module h' t' u' p' module' property (lines : list jsstring) :
  plainName property = true ->
  Forall (fun l => forallb (accepts Dot) l = true) lines ->
  answersProperties h t u p module property true (unlines lines) ->
  answersProperties h' t' u' p' module' property false (unlines lines) ->
  fst (run h (retrieveGradleProperty u p module property) t)
  = fst (run h' (retrieveGradleProperty u' p' module' property) t').
Proof.
  intros Hp Hls Hs Hl.
  rewrite (outcome_retrieveGradleProperty _ _ _ _ _ _ _ _ Hs).
  rewrite (outcome_retrieveGradleProperty _ _ _ _ _ _ _ _ Hl).
  f_equal. now apply propertyValue_modes.
Qed.

(** X11, witness: the same listing on gradle 7.6 and on gradle 7.4. *)
Lemma retrieveGradleProperty_modes_agree_witness :
  plainName (js "name") = true
  /\ Forall (fun l => forallb (accepts Dot) l = true)
       [js "hostname: h"; js "name: root"]
  /\ answersProperties
       (scripted (succeeded (banner (js "7.6")))
                 (succeeded (unlines [js "hostname: h"; js "name: root"])))
       [] false (js ".") (js ":") (js "name") true
       (unlines [js "hostname: h"; js "name: root"])
  /\ answersProperties
       (scripted (succeeded (banner (js "7.4")))
                 (succeeded (unlines [js "hostname: h"; js "name: root"])))
       [] false (js ".") (js ":") (js "name") false
       (unlines [js "hostname: h"; js "name: root"])
  /\ fst (run (scripted (succeeded (banner (js "7.6")))
                 (succeeded (unlines [js "hostname: h"; js "name: root"])))
            (retrieveGradleProperty false (js ".") (js ":") (js "name")) [])
     = fst (run (scripted (succeeded (banner (js "7.4")))
                   (succeeded (unlines [js "hostname: h"; js "name: root"])))
              (retrieveGradleProperty false (js ".") (js ":") (js "name")) []).
Proof.
  assert (L : Forall (fun l => forallb (accepts Dot) l = true)
                [js "hostname: h"; js "name: root"])
    by (repeat constructor).
  assert (H1 : answersProperties
       (scripted (succeeded (banner (js "7.6")))
                 (succeeded (unlines [js "hostname: h"; js "name: root"])))
       [] false (js ".") (js ":") (js "name") true
       (unlines [js "hostname: h"; js "name: root"])).
  { scripted_answers. }
  assert (H2 : answersProperties
       (scripted (succeeded (banner (js "7.4")))
                 (succeeded (unlines [js "hostname: h"; js "name: root"])))
       [] false (js ".") (js ":") (js "name") false
       (unlines [js "hostname: h"; js "name: root"])).
  { scripted_answers. }
  split; [reflexivity|]. split; [exact L|]. split; [exact H1|]. split; [exact H2|].
  exact (retrieveGradleProperty_modes_agree _ _ _ _ _ _ _ _ _ _ (js "name") _
           eq_refl L H1 H2).
Defined.

(** ** The root module *)

(** X12.  The root module can be passed as [:] or as the empty string: the
    build path retrieval makes the same invocations and has the same
    outcome, and the dependency listing runs the same in every respect. *)
Theorem root_module_interchangeable h t u p configuration :
  fst (run h (retrieveGradleBuildPath u p (js ":")) t)
  = fst (run h (retrieveGradleBuildPath u p (js "")) t)
  /\ invocations (snd (run h (retrieveGradleBuildPath u p (js ":")) t))
     = invocations (snd (run h (retrieveGradleBuildPath u p (js "")) t))
  /\ run h (retrieveGradleDependencies u p (js ":") configuration) t
     = run h (retrieveGradleDependencies u p (js "") configuration) t
  /\ (forall module, verifyModule (verifyModule module) = verifyModule module).
Proof.
  split; [|split; [|split]].
  - unfold retrieveGradleBuildPath. rewrite !run_retrieveGradleProperty.
    destruct (run h (singlePropertySupport u p) t) as [[supported|e] t1];
      [|reflexivity].
    unfold propertyOutput, propertyExec.
    change (verifyModule (js ":")) with (verifyModule (js "")). cbv zeta.
    destruct (negb (exitCode _ =? 0)%Z); [reflexivity|].
    destruct (matchProperty supported _ _) as [[m|]|]; reflexivity.
  - unfold retrieveGradleBuildPath.
    now rewrite !invocations_retrieveGradleProperty.
  - reflexivity.
  - intros module. unfold verifyModule.
    destruct (jsstring_eqb module (js ":")) eqn:E; [reflexivity|].
    now rewrite E.
Qed.
